(** * dp_tools.core.check_model: checks, flags and the V&V protocol

    A shallow embedding of [src/dp_tools/core/check_model.py].  Python
    objects that the module shares by reference (the [flag_desc] dicts and
    the [Check] instances) live in an explicit store; exceptions are values
    of an [outcome] type; the user supplied [validate_func] bodies and the
    helper [strict_type_checks] (imported from [dp_tools.core.model_commons])
    are fields of a [Runtime] record. *)

From Stdlib Require Import ZArith Ascii String.
From stdpp Require Import gmap strings list fin_maps pretty.

Local Open Scope string_scope.
Local Open Scope list_scope.

(** ** Exceptions *)

Module PyExc.

(** An exception instance: the names along the [__mro__] of its class
    (most derived first) and its [str()] rendering. *)
Record exn := Exn { exc_mro : list string; exc_str : string }.

Definition BaseException (msg : string) : exn := Exn ["BaseException"] msg.
Definition KeyboardInterrupt (msg : string) : exn :=
  Exn ["KeyboardInterrupt"; "BaseException"] msg.
Definition Exception (msg : string) : exn :=
  Exn ["Exception"; "BaseException"] msg.
Definition AssertionError (msg : string) : exn :=
  Exn ["AssertionError"; "Exception"; "BaseException"] msg.
Definition TypeError (msg : string) : exn :=
  Exn ["TypeError"; "Exception"; "BaseException"] msg.
Definition ValueError (msg : string) : exn :=
  Exn ["ValueError"; "Exception"; "BaseException"] msg.
Definition IndexError (msg : string) : exn :=
  Exn ["IndexError"; "LookupError"; "Exception"; "BaseException"] msg.
(** The [str()] of a [KeyError] is the [repr] of the key. *)
Definition KeyError (key_repr : string) : exn :=
  Exn ["KeyError"; "LookupError"; "Exception"; "BaseException"] key_repr.
Definition AttributeError (msg : string) : exn :=
  Exn ["AttributeError"; "Exception"; "BaseException"] msg.
Definition OSError (msg : string) : exn :=
  Exn ["OSError"; "Exception"; "BaseException"] msg.

(** [isinstance(e, cls)] for a class given by name. *)
Definition isinstance (e : exn) (cls : string) : bool :=
  bool_decide (cls ∈ exc_mro e).

(** Does [except classes as e:] catch [e]?  [classes] is one class or a
    tuple of classes. *)
Definition except_matches (classes : list string) (e : exn) : bool :=
  existsb (isinstance e) classes.

Inductive outcome (A : Type) : Type :=
| Returns (a : A)
| Raises (e : exn).
Arguments Returns {A} a.
Arguments Raises {A} e.

End PyExc.
Import PyExc.

(** ** [enum.Enum] class creation *)

Module PyEnum.

Record Member := Mk { name : string; value : Z }.

(** The state [EnumType.__new__] builds while it walks the class body:
    [_member_names_] (canonical names only) and [_member_map_] (every
    name, aliases included). *)
Record EnumClass := {
  _member_names_ : list string;
  _member_map_ : list (string * Member)
}.

(** The first member already defined with an equal value, if any. *)
Definition canonical_for (v : Z) (mm : list (string * Member)) : option Member :=
  snd <$> List.find (fun nm => Z.eqb (value (snd nm)) v) mm.

(** One name of the class body: when a member with the same value was
    defined before, the new name becomes an alias of it; otherwise a new
    member is created and its name recorded. *)
Definition add_member (cls : EnumClass) (nv : string * Z) : EnumClass :=
  match canonical_for (snd nv) (_member_map_ cls) with
  | Some m =>
      {| _member_names_ := _member_names_ cls;
         _member_map_ := _member_map_ cls ++ [(fst nv, m)] |}
  | None =>
      {| _member_names_ := _member_names_ cls ++ [fst nv];
         _member_map_ := _member_map_ cls ++ [(fst nv, Mk (fst nv) (snd nv))] |}
  end.

Definition create (body : list (string * Z)) : EnumClass :=
  fold_left add_member body {| _member_names_ := []; _member_map_ := [] |}.

(** Attribute access [Cls.NAME]. *)
Definition getattr (cls : EnumClass) (n : string) : option Member :=
  snd <$> List.find (fun nm => String.eqb (fst nm) n) (_member_map_ cls).

(** [list(Cls)]: the canonical members in definition order. *)
Definition members (cls : EnumClass) : list Member :=
  omap (getattr cls) (_member_names_ cls).

#[global] Instance Member_eq_dec : EqDecision Member.
Proof. solve_decision. Defined.

#[global] Instance Member_countable : Countable Member :=
  inj_countable' (fun m => (name m, value m)) (fun p => Mk (fst p) (snd p))
    (fun m => match m with Mk _ _ => eq_refl end).

End PyEnum.

(** ** [FlagCode] *)

Definition FlagCode_body : list (string * Z) :=
  [ ("DEV_HANDLED", 90); ("DEV_UNHANDLED", 91);
    ("HALT1", 80); ("HALT2", 80); ("HALT3", 80); ("HALT4", 80); ("HALT5", 80);
    ("RED1", 50); ("RED2", 50); ("RED3", 50); ("RED4", 50); ("RED5", 50);
    ("YELLOW1", 30); ("YELLOW2", 30); ("YELLOW3", 30); ("YELLOW4", 30);
    ("YELLOW5", 30);
    ("GREEN", 20); ("INFO", 10) ]%Z.

Definition FlagCode_class : PyEnum.EnumClass :=
  Eval vm_compute in PyEnum.create FlagCode_body.

Abbreviation FlagCode := PyEnum.Member.

(** [repr] of a member, as in [<FlagCode.GREEN: 20>]. *)
Definition FlagCode_repr (c : FlagCode) : string :=
  "<FlagCode." +:+ PyEnum.name c +:+ ": " +:+ pretty (PyEnum.value c) +:+ ">".

(** [FlagCode.NAME] for a name of the class body. *)
Definition FlagCode_attr (n : string) : option FlagCode :=
  PyEnum.getattr FlagCode_class n.

Definition DEV_UNHANDLED : FlagCode := PyEnum.Mk "DEV_UNHANDLED" 91.
Definition GREEN : FlagCode := PyEnum.Mk "GREEN" 20.
Definition RED1 : FlagCode := PyEnum.Mk "RED1" 50.

(** ** Regular expressions, as far as [Check.__post_init__] uses them *)

Module Re.

Inductive regex :=
| Void
| Eps
| Class (p : ascii -> bool)
| Cat (r1 r2 : regex)
| Alt (r1 r2 : regex)
| Star (r : regex).

Fixpoint nullable (r : regex) : bool :=
  match r with
  | Void => false
  | Eps => true
  | Class _ => false
  | Cat r1 r2 => nullable r1 && nullable r2
  | Alt r1 r2 => nullable r1 || nullable r2
  | Star _ => true
  end.

Fixpoint deriv (c : ascii) (r : regex) : regex :=
  match r with
  | Void => Void
  | Eps => Void
  | Class p => if p c then Eps else Void
  | Cat r1 r2 =>
      if nullable r1
      then Alt (Cat (deriv c r1) r2) (deriv c r2)
      else Cat (deriv c r1) r2
  | Alt r1 r2 => Alt (deriv c r1) (deriv c r2)
  | Star r1 => Cat (deriv c r1) (Star r1)
  end.

(** Does the whole of [s] belong to the language of [r]? *)
Fixpoint fullmatch (r : regex) (s : string) : bool :=
  match s with
  | EmptyString => nullable r
  | String c s' => fullmatch (deriv c r) s'
  end.

Definition chr (c : ascii) : regex := Class (Ascii.eqb c).

Fixpoint lit (s : string) : regex :=
  match s with
  | EmptyString => Eps
  | String c s' => Cat (chr c) (lit s')
  end.

(** [\d] and [\D] on code points below 256, where the decimal digits are
    exactly ['0'..'9']. *)
Definition is_digit (c : ascii) : bool :=
  (48 <=? nat_of_ascii c)%nat && (nat_of_ascii c <=? 57)%nat.
Definition digit : regex := Class is_digit.
Definition non_digit : regex := Class (fun c => negb (is_digit c)).

(** [$] as the last item of a pattern: the end of the string, or the
    position just before a newline that ends the string. *)
Definition newline : ascii := ascii_of_nat 10.
Definition dollar : regex := Alt Eps (chr newline).

(** The language of a regex, as a relation. *)
Inductive lang : regex -> string -> Prop :=
| lang_eps : lang Eps EmptyString
| lang_class p c : p c = true -> lang (Class p) (String c EmptyString)
| lang_cat r1 r2 s1 s2 : lang r1 s1 -> lang r2 s2 -> lang (Cat r1 r2) (s1 +:+ s2)
| lang_alt_l r1 r2 s : lang r1 s -> lang (Alt r1 r2) s
| lang_alt_r r1 r2 s : lang r2 s -> lang (Alt r1 r2) s
| lang_star_nil r : lang (Star r) EmptyString
| lang_star_cons r s1 s2 : lang r s1 -> lang (Star r) s2 -> lang (Star r) (s1 +:+ s2).

End Re.

(** [r"^(COMPONENT|SAMPLE|DATASET)_\D*_\d\d\d\d$"].  [re.match] anchors the
    pattern at position 0, where [^] holds, and the trailing [$] leaves
    nothing but an optional final newline, so [re.match] finds a match
    exactly when the whole id is in the language below. *)
Definition check_id_pattern : Re.regex :=
  Re.Cat (Re.Alt (Re.lit "COMPONENT") (Re.Alt (Re.lit "SAMPLE") (Re.lit "DATASET")))
    (Re.Cat (Re.chr "_")
       (Re.Cat (Re.Star Re.non_digit)
          (Re.Cat (Re.chr "_")
             (Re.Cat Re.digit (Re.Cat Re.digit (Re.Cat Re.digit (Re.Cat Re.digit Re.dollar))))))).

(** [bool(re.match(check_id_pattern, id))] *)
Definition re_match_check_id (id : string) : bool :=
  Re.fullmatch check_id_pattern id.

(** ** [str.format] with keyword arguments only *)

Module PyFormat.

(** The values that reach [str.format] in this module: strings, function
    objects (by name), exception instances, and any other object, given
    by its [str()] rendering. *)
Inductive pyval :=
| VStr (s : string)
| VFunc (f : string)
| VExc (e : exn)
| VObj (rendering : string).

(** [format] of a value with an empty format spec.  The rendering of a function object carries a memory
    address in Python, which is left out here. *)
Definition py_str (v : pyval) : string :=
  match v with
  | VStr s => s
  | VFunc f => "<function " +:+ f +:+ ">"
  | VExc e => exc_str e
  | VObj r => r
  end.

(** What is up to the value's own methods: the accessors of a field name
    ([.attr], [[key]]) followed by the conversion ([!r], [!s], [!a]), and
    [format(value, spec)] for a format spec that is not empty. *)
Record field_ops := {
  field_value : pyval -> string -> option ascii -> outcome pyval;
  field_render : pyval -> string -> outcome string
}.

(** A replacement field as the scanner leaves it: the field name up to the
    [!] or [:], the conversion character, the format spec, and whether the
    format spec holds an opening brace. *)
Record field := {
  field_name : string;
  conversion : option ascii;
  format_spec : string;
  needs_expanding : bool
}.

(** A template is read as characters of literal text and replacement
    fields. *)
Inductive item :=
| Literal (c : ascii)
| Markup (f : field).

(** Where the scanner is: in literal text; in a field name; in a field
    name, between [[] and []]; just past the [!]; past the conversion
    character; in the format spec, so many braces deep. *)
Inductive mode :=
| Text
| FieldName (name : string)
| Index (name : string)
| Conversion (name : string)
| AfterConversion (name : string) (conv : ascii)
| FormatSpec (name : string) (conv : option ascii) (spec : string) (depth : nat)
    (expanding : bool).

Definition snoc (s : string) (c : ascii) : string := s +:+ String c EmptyString.

Definition is_index (arg : string) : bool :=
  forallb Re.is_digit (list_ascii_of_string arg).

Definition ends_name (c : ascii) : bool :=
  Ascii.eqb c "." || Ascii.eqb c "[" || Ascii.eqb c "!" || Ascii.eqb c ":".

Definition emit (i : item) (r : list item * option exn) : list item * option exn :=
  (i :: fst r, snd r).

(** The error of a template that ends where the scanner is. *)
Definition at_end (m : mode) : option exn :=
  match m with
  | Text => None
  | FieldName _ | Index _ => Some (ValueError "expected '}' before end of string")
  | Conversion _ =>
      Some (ValueError "end of string while looking for conversion specifier")
  | AfterConversion _ _ | FormatSpec _ _ _ _ _ =>
      Some (ValueError "unmatched '{' in format spec")
  end.

(** The items of a template, up to its first syntax error if it has one.
    In a field name a [[] hides everything up to the next []]; a [{] there
    is an error and a [}] ends the field.  In a format spec braces are
    counted, and the field ends with the brace that matches its own. *)
Fixpoint parse_from (m : mode) (s : string) : list item * option exn :=
  match s with
  | EmptyString => ([], at_end m)
  | String c s' =>
      match m with
      | Text =>
          if Ascii.eqb c "{" then
            match s' with
            | EmptyString =>
                ([], Some (ValueError "Single '{' encountered in format string"))
            | String c' s'' =>
                if Ascii.eqb c' "{" then emit (Literal "{") (parse_from Text s'')
                else parse_from (FieldName EmptyString) s'
            end
          else if Ascii.eqb c "}" then
            match s' with
            | EmptyString =>
                ([], Some (ValueError "Single '}' encountered in format string"))
            | String c' s'' =>
                if Ascii.eqb c' "}" then emit (Literal "}") (parse_from Text s'')
                else ([], Some (ValueError "Single '}' encountered in format string"))
            end
          else emit (Literal c) (parse_from Text s')
      | FieldName name =>
          if Ascii.eqb c "{" then
            ([], Some (ValueError "unexpected '{' in field name"))
          else if Ascii.eqb c "[" then parse_from (Index (snoc name c)) s'
          else if Ascii.eqb c "}" then
            emit (Markup {| field_name := name; conversion := None;
                            format_spec := EmptyString; needs_expanding := false |})
              (parse_from Text s')
          else if Ascii.eqb c ":" then parse_from (FormatSpec name None EmptyString 0 false) s'
          else if Ascii.eqb c "!" then parse_from (Conversion name) s'
          else parse_from (FieldName (snoc name c)) s'
      | Index name =>
          if Ascii.eqb c "]" then parse_from (FieldName (snoc name c)) s'
          else parse_from (Index (snoc name c)) s'
      | Conversion name => parse_from (AfterConversion name c) s'
      | AfterConversion name conv =>
          if Ascii.eqb c "}" then
            emit (Markup {| field_name := name; conversion := Some conv;
                            format_spec := EmptyString; needs_expanding := false |})
              (parse_from Text s')
          else if Ascii.eqb c ":" then
            parse_from (FormatSpec name (Some conv) EmptyString 0 false) s'
          else ([], Some (ValueError "expected ':' after conversion specifier"))
      | FormatSpec name conv spec depth expanding =>
          if Ascii.eqb c "{" then
            parse_from (FormatSpec name conv (snoc spec c) (S depth) true) s'
          else if Ascii.eqb c "}" then
            match depth with
            | S d => parse_from (FormatSpec name conv (snoc spec c) d expanding) s'
            | O =>
                emit (Markup {| field_name := name; conversion := conv;
                                format_spec := spec; needs_expanding := expanding |})
                  (parse_from Text s')
            end
          else parse_from (FormatSpec name conv (snoc spec c) depth expanding) s'
      end
  end.

(** The argument name of a field name, and the accessors after it: the
    name runs up to the first [.] or [[]. *)
Fixpoint split_first (name : string) : string * string :=
  match name with
  | EmptyString => (EmptyString, EmptyString)
  | String c s' =>
      if Ascii.eqb c "." || Ascii.eqb c "[" then (EmptyString, name)
      else (String c (fst (split_first s')), snd (split_first s'))
  end.

(** The largest index, on a 64-bit build. *)
Definition PY_SSIZE_T_MAX : N := 9223372036854775807.

Definition digit_value (c : ascii) : N := N_of_ascii c - 48.

(** The number a run of digits stands for, unless it is too long. *)
Fixpoint get_integer (accumulator : N) (digits : list ascii) : outcome N :=
  match digits with
  | [] => Returns accumulator
  | c :: digits' =>
      if ((PY_SSIZE_T_MAX - digit_value c) / 10 <? accumulator)%N then
        Raises (ValueError "Too many decimal digits in format string")
      else get_integer (accumulator * 10 + digit_value c) digits'
  end.

Section format.
Variable ops : field_ops.
Variable kwargs : gmap string pyval.
(** The formatting of a format spec that holds fields of its own. *)
Variable expand : string -> outcome string.

(** No positional arguments are ever passed, so an empty or numeric
    argument name is out of range. *)
Definition get_value (arg : string) : outcome pyval :=
  if is_index arg then
    match get_integer 0 (list_ascii_of_string arg) with
    | Raises e => Raises e
    | Returns index =>
        Raises (IndexError ("Replacement index " +:+ pretty index
                            +:+ " out of range for positional args tuple"))
    end
  else match kwargs !! arg with
       | Some v => Returns v
       | None => Raises (KeyError ("'" +:+ arg +:+ "'"))
       end.

(** The text one field is replaced by: the argument is looked up, then
    come the accessors and the conversion, then the fields of the format
    spec are filled in, and the value is formatted last. *)
Definition render_field (f : field) : outcome string :=
  let (first, rest) := split_first (field_name f) in
  match get_value first with
  | Raises e => Raises e
  | Returns obj =>
      match (match rest, conversion f with
             | EmptyString, None => Returns obj
             | _, _ => field_value ops obj rest (conversion f)
             end) with
      | Raises e => Raises e
      | Returns obj' =>
          match (if needs_expanding f then expand (format_spec f)
                 else Returns (format_spec f)) with
          | Raises e => Raises e
          | Returns EmptyString => Returns (py_str obj')
          | Returns spec => field_render ops obj' spec
          end
      end
  end.

Fixpoint render_items (items : list item) (out : string) : outcome string :=
  match items with
  | [] => Returns out
  | Literal c :: items' => render_items items' (snoc out c)
  | Markup f :: items' =>
      match render_field f with
      | Raises e => Raises e
      | Returns text => render_items items' (out +:+ text)
      end
  end.

(** Each field is rendered before the text after it is read, so an error
    of the syntax shows once the items before it have gone through. *)
Definition format_with (template : string) : outcome string :=
  match render_items (fst (parse_from Text template)) EmptyString with
  | Raises e => Raises e
  | Returns out =>
      match snd (parse_from Text template) with
      | Some e => Raises e
      | None => Returns out
      end
  end.
End format.

(** A format spec is formatted with the same arguments; a field in it
    may not have fields in its own format spec. *)
Definition format_nested (ops : field_ops) (kwargs : gmap string pyval) (spec : string)
    : outcome string :=
  format_with ops kwargs (fun _ => Raises (ValueError "Max string recursion exceeded")) spec.

(** [template.format] applied to the unpacked [kwargs] *)
Definition str_format (ops : field_ops) (kwargs : gmap string pyval) (template : string)
    : outcome string :=
  format_with ops kwargs (format_nested ops kwargs) template.

(** The keyword names the fields of a template refer to, those of the
    fields in a format spec included. *)
Definition field_keys (f : field) : list string :=
  let first := fst (split_first (field_name f)) in
  if is_index first then [] else [first].

Fixpoint item_keys (nested : string -> list string) (items : list item) : list string :=
  match items with
  | [] => []
  | Literal _ :: items' => item_keys nested items'
  | Markup f :: items' =>
      field_keys f ++ (if needs_expanding f then nested (format_spec f) else [])
      ++ item_keys nested items'
  end.

Definition nested_keys (spec : string) : list string :=
  item_keys (fun _ => []) (fst (parse_from Text spec)).

Definition format_keys (template : string) : list string :=
  item_keys nested_keys (fst (parse_from Text template)).

(** A template made of literal text, doubled braces and fields [{name}]
    only, every brace matched. *)
Definition plain_field (f : field) : bool :=
  negb (is_index (field_name f))
  && forallb (fun c => negb (Ascii.eqb c "." || Ascii.eqb c "["))
       (list_ascii_of_string (field_name f))
  && bool_decide (conversion f = None)
  && bool_decide (format_spec f = EmptyString)
  && negb (needs_expanding f).



End PyFormat.
Import PyFormat.

(** ** The store: [Check] and [Flag] instances, [flag_desc] dicts *)

Abbreviation loc := nat.

Record Flag := {
  code : FlagCode;
  check : loc;                          (* a reference to the owning Check *)
  message_args : gmap string pyval;
  message : string
}.

Record Check := {
  description : string;
  id : string;
  flag_desc : loc;                      (* a reference to a dict object *)
  validate_func : option string;        (* a function, by name, or None *)
  flags : list Flag;
  config : gmap string pyval;
  _proto_description : string
}.

Record State := {
  ALLOWED_DEV_EXCEPTIONS : list string; (* module global; a class or a tuple *)
  allChecks : list loc;                 (* class attribute Check.allChecks *)
  checks : gmap loc Check;              (* the Check instances, by address *)
  dicts : gmap loc (gmap FlagCode string); (* the dict objects, by address *)
  log : list (string * loc)             (* records sent to the module logger *)
}.

(** The module as first imported: the catch-all is [Exception], no check
    has been constructed; [ds] are the dict objects the caller holds. *)
Definition initial_state (ds : gmap loc (gmap FlagCode string)) : State :=
  {| ALLOWED_DEV_EXCEPTIONS := ["Exception"]; allChecks := []; checks := ∅;
     dicts := ds; log := [] |}.

Definition set_checks (st : State) (register : list loc) (cs : gmap loc Check) : State :=
  {| ALLOWED_DEV_EXCEPTIONS := ALLOWED_DEV_EXCEPTIONS st;
     allChecks := allChecks st ++ register; checks := cs;
     dicts := dicts st; log := log st |}.

Definition set_dicts (st : State) (ds : gmap loc (gmap FlagCode string)) : State :=
  {| ALLOWED_DEV_EXCEPTIONS := ALLOWED_DEV_EXCEPTIONS st;
     allChecks := allChecks st; checks := checks st;
     dicts := ds; log := log st |}.

Definition log_critical (st : State) (msg : string) (self : loc) : State :=
  {| ALLOWED_DEV_EXCEPTIONS := ALLOWED_DEV_EXCEPTIONS st;
     allChecks := allChecks st; checks := checks st;
     dicts := dicts st; log := log st ++ [(msg, self)] |}.

Definition append_flag (c : Check) (fl : Flag) : Check :=
  {| description := description c; id := id c; flag_desc := flag_desc c;
     validate_func := validate_func c; flags := flags c ++ [fl];
     config := config c; _proto_description := _proto_description c |}.

(** What [validate_func] hands back: a Flag, or anything else. *)
Inductive retval :=
| RFlag (fl : Flag)
| RValue (v : pyval).

(** The code this module calls but does not define. *)
Record Runtime := {
  (** the body of each validation function: called with the check, the
      remaining arguments and the store *)
  validate_funcs : string -> loc -> list pyval -> State -> outcome retval * State;
  (** [dp_tools.core.model_commons.strict_type_checks]: the exception it
      raises for a flag, if any *)
  strict_type_checks : Flag -> option exn;
  (** accessors, conversions and format specs of replacement fields *)
  format_ext : field_ops
}.

(** ** [Check] *)

Definition CHECK_ID_MESSAGE : string :=
  "Valid Check ID format: SCOPE_WORD_dddd where d is any digit. SCOPE must be either 'COMPONENT','SAMPLE' or 'DATASET'".

Definition DEV_UNHANDLED_TEMPLATE : string :=
  "An unhandled exception occured in {function}: {e}".

(** [[check.id for check in self.allChecks]] *)
Definition registered_ids (st : State) : list string :=
  omap (fun l => id <$> checks st !! l) (allChecks st).

(** [__post_init__] from the id assertion on, for the instance [self] whose
    description has been formatted.  The instance gets its address when it
    becomes reachable, that is when it is appended to [allChecks]. *)
Definition Check_register (self : Check) (st : State) : outcome loc * State :=
  if negb (re_match_check_id (id self)) then
    (Raises (AssertionError CHECK_ID_MESSAGE), st)
  else if bool_decide (id self ∈ registered_ids st) then
    (Raises (AssertionError "CheckID already used, try another ID"), st)
  else
    let l := fresh (dom (checks st)) in
    let st1 := set_checks st [l] (<[l := self]> (checks st)) in
    match dicts st1 !! flag_desc self with
    | None => (Raises (TypeError "object does not support item assignment"), st1)
    | Some d =>
        (Returns l,
         set_dicts st1 (<[flag_desc self := <[DEV_UNHANDLED := DEV_UNHANDLED_TEMPLATE]> d]> (dicts st1)))
    end.

(** [Check(description, id, flag_desc, validate_func, flags, config)]: the
    generated [__init__] followed by [__post_init__]. *)
Definition Check_init (rt : Runtime) (description id : string) (flag_desc : loc)
    (validate_func : option string) (flags : list Flag)
    (config : gmap string pyval) (st : State) : outcome loc * State :=
  match str_format (format_ext rt) config description with
  | Raises e => (Raises e, st)
  | Returns formatted =>
      Check_register
        {| description := formatted; id := id; flag_desc := flag_desc;
           validate_func := validate_func; flags := flags; config := config;
           _proto_description := description |} st
  end.

(** The store a successful registration of [self] leaves, [d] being the
    dict its [flag_desc] refers to. *)
Definition registered (self : Check) (d : gmap FlagCode string) (st : State) : State :=
  let l := fresh (dom (checks st)) in
  set_dicts (set_checks st [l] (<[l := self]> (checks st)))
    (<[flag_desc self := <[DEV_UNHANDLED := DEV_UNHANDLED_TEMPLATE]> d]> (dicts st)).

(** ** [Flag] *)

(** [Flag(code, check, message_args)]: the generated [__init__] followed by
    [__post_init__]. *)
Definition Flag_init (rt : Runtime) (code : FlagCode) (check : loc)
    (message_args : gmap string pyval) (st : State) : outcome Flag * State :=
  match checks st !! check with
  | None => (Raises (AttributeError "flag_desc"), st)
  | Some c =>
      match dicts st !! flag_desc c with
      | None => (Raises (TypeError "object is not subscriptable"), st)
      | Some d =>
          match d !! code with
          | None => (Raises (KeyError (FlagCode_repr code)), st)
          | Some pre_format_msg =>
              match str_format (format_ext rt) message_args pre_format_msg with
              | Raises e => (Raises e, st)
              | Returns msg =>
                  let self := {| code := code; check := check;
                                 message_args := message_args; message := msg |} in
                  match strict_type_checks rt self with
                  | Some e => (Raises e, st)
                  | None =>
                      (Returns self,
                       set_checks st [] (<[check := append_flag c self]> (checks st)))
                  end
              end
          end
      end
  end.

(** ** [Check.validate] and [Check.copy_with_new_config] *)

Definition func_value (f : option string) : pyval :=
  match f with
  | Some n => VFunc n
  | None => VObj "None"
  end.

(** [self.validate_func(self, *args, **kwargs)] *)
Definition call_validate_func (rt : Runtime) (self : loc) (c : Check)
    (args : list pyval) (st : State) : outcome retval * State :=
  match validate_func c with
  | None => (Raises (TypeError "'NoneType' object is not callable"), st)
  | Some f => validate_funcs rt f self args st
  end.

Definition validate (rt : Runtime) (self : loc) (args : list pyval) (st : State)
    : outcome retval * State :=
  match checks st !! self with
  | None => (Raises (AttributeError "validate_func"), st)
  | Some c =>
      match call_validate_func rt self c args st with
      | (Returns r, st1) => (Returns r, st1)
      | (Raises e, st1) =>
          if except_matches (ALLOWED_DEV_EXCEPTIONS st1) e then
            let st2 :=
              log_critical st1
                "Developer exception raised during a validation function for check: " self in
            let f := func_value (from_option validate_func (validate_func c) (checks st2 !! self)) in
            match Flag_init rt DEV_UNHANDLED self {[ "function" := f; "e" := VExc e ]} st2 with
            | (Returns fl, st3) => (Returns (RFlag fl), st3)
            | (Raises e', st3) => (Raises e', st3)
            end
          else (Raises e, st1)
      end
  end.

Definition copy_with_new_config (rt : Runtime) (self : loc) (id : string)
    (config : gmap string pyval) (st : State) : outcome loc * State :=
  match checks st !! self with
  | None => (Raises (AttributeError "_proto_description"), st)
  | Some c =>
      Check_init rt (_proto_description c) id (flag_desc c) (validate_func c) [] config st
  end.

(** Reading and writing an entry of a check's [flag_desc]:
    [check.flag_desc[k]] and [check.flag_desc[k] = v]. *)
Definition flag_desc_getitem (st : State) (c : loc) (k : FlagCode) : option string :=
  cobj ← checks st !! c; d ← dicts st !! flag_desc cobj; d !! k.

Definition flag_desc_setitem (st : State) (c : loc) (k : FlagCode) (v : string) : State :=
  match checks st !! c with
  | None => st
  | Some cobj =>
      match dicts st !! flag_desc cobj with
      | None => st
      | Some d => set_dicts st (<[flag_desc cobj := <[k := v]> d]> (dicts st))
      end
  end.

(** ** Runs of the module's operations *)

Inductive op :=
| OpCheck (description id : string) (flag_desc : loc) (validate_func : option string)
    (flags : list Flag) (config : gmap string pyval)
| OpFlag (code : FlagCode) (check : loc) (message_args : gmap string pyval)
| OpValidate (self : loc) (args : list pyval)
| OpCopy (self : loc) (id : string) (config : gmap string pyval).

Definition run_op (rt : Runtime) (st : State) (o : op) : State :=
  match o with
  | OpCheck d i fd vf fl cfg => snd (Check_init rt d i fd vf fl cfg st)
  | OpFlag cd c ma => snd (Flag_init rt cd c ma st)
  | OpValidate self args => snd (validate rt self args st)
  | OpCopy self i cfg => snd (copy_with_new_config rt self i cfg st)
  end.

Definition run (rt : Runtime) (ops : list op) (st : State) : State :=
  fold_left (run_op rt) ops st.

(** Every registered address holds a check, and no id is registered twice. *)
Definition registry_ok (st : State) : Prop :=
  (∀ l, l ∈ allChecks st → is_Some (checks st !! l)) ∧ NoDup (registered_ids st).

(** From [st] to [st'] the registry stays in order and no id leaves it. *)
Definition registry_step (st st' : State) : Prop :=
  (registry_ok st → registry_ok st') ∧
  (∀ i, i ∈ registered_ids st → i ∈ registered_ids st').

(** Validation functions that leave registered checks registered under
    their ids, as those do that touch the registry only by constructing
    checks and flags. *)
Definition respects_registry (rt : Runtime) : Prop :=
  ∀ f self args st, registry_step st (snd (validate_funcs rt f self args st)).

(** ** The id format in the words of the specification *)

Definition SCOPES : list string := ["COMPONENT"; "SAMPLE"; "DATASET"].

Fixpoint drop_string (n : nat) (s : string) : string :=
  match n, s with
  | S n', String _ s' => drop_string n' s'
  | _, _ => s
  end.

(** SCOPE_WORD_NNNN: one of the three scope words and an underscore at the
    front, an underscore and exactly four digits at the end, any word in
    between. *)
Definition spec_id_format (id : string) : bool :=
  existsb
    (fun scope =>
       String.prefix (scope +:+ "_") id &&
       (String.length scope + 6 <=? String.length id)%nat &&
       match list_ascii_of_string (drop_string (String.length id - 5) id) with
       | [u; d1; d2; d3; d4] =>
           Ascii.eqb u "_" && Re.is_digit d1 && Re.is_digit d2 && Re.is_digit d3 && Re.is_digit d4
       | _ => false
       end)
    SCOPES.

(** The id format the assertion's pattern describes: the word holds no
    digit. *)
Definition pattern_id_format (id : string) : Prop :=
  ∃ scope word digits,
    id = scope +:+ "_" +:+ word +:+ "_" +:+ digits ∧
    scope ∈ SCOPES ∧
    forallb (fun c => negb (Re.is_digit c)) (list_ascii_of_string word) = true ∧
    String.length digits = 4 ∧
    forallb Re.is_digit (list_ascii_of_string digits) = true.

(** ** [VVProtocol] *)

Section VVProtocol.
Context {DS SM CP : Type} `{Countable DS, Countable SM, Countable CP}.
(** The rest of the program state, which the subclass methods work on. *)
Context {W : Type}.

(** [self._flags], a dict with the three keys "dataset", "sample" and
    "component". *)
Record VVFlags := {
  flags_dataset : gmap DS (list Flag);
  flags_sample : gmap SM (list Flag);
  flags_component : gmap CP (list Flag)
}.

Record VVProtocol := {
  dataset : DS;
  _flags : VVFlags
}.

(** What a concrete protocol supplies.  The three methods read the
    protocol and act on the rest of the state. *)
Record VVMethods := {
  expected_dataset_class : DS -> bool;
  validate_dataset : VVProtocol -> W -> outcome (gmap DS (list Flag)) * W;
  validate_samples : VVProtocol -> W -> outcome (gmap SM (list Flag)) * W;
  validate_components : VVProtocol -> W -> outcome (gmap CP (list Flag)) * W
}.

Definition VVProtocol_init (m : VVMethods) (ds : DS) : outcome VVProtocol :=
  if expected_dataset_class m ds then
    Returns {| dataset := ds;
               _flags := {| flags_dataset := ∅; flags_sample := ∅; flags_component := ∅ |} |}
  else
    Raises (AssertionError "dataset MUST be of type 'BulkRNASeqDataset' for this protocol").

(** The [flags] property. *)
Definition VVProtocol_flags (self : VVProtocol) : VVFlags := _flags self.

(** [d.update(other)]: every key of [other] is set in [d]. *)
Definition dict_update {K V} `{Countable K} (d other : gmap K V) : gmap K V :=
  other ∪ d.

Definition update_dataset (self : VVProtocol) (r : gmap DS (list Flag)) : VVProtocol :=
  {| dataset := dataset self;
     _flags := {| flags_dataset := dict_update (flags_dataset (_flags self)) r;
                  flags_sample := flags_sample (_flags self);
                  flags_component := flags_component (_flags self) |} |}.

Definition update_sample (self : VVProtocol) (r : gmap SM (list Flag)) : VVProtocol :=
  {| dataset := dataset self;
     _flags := {| flags_dataset := flags_dataset (_flags self);
                  flags_sample := dict_update (flags_sample (_flags self)) r;
                  flags_component := flags_component (_flags self) |} |}.

Definition update_component (self : VVProtocol) (r : gmap CP (list Flag)) : VVProtocol :=
  {| dataset := dataset self;
     _flags := {| flags_dataset := flags_dataset (_flags self);
                  flags_sample := flags_sample (_flags self);
                  flags_component := dict_update (flags_component (_flags self)) r |} |}.

Definition validate_all (m : VVMethods) (self : VVProtocol) (w : W)
    : outcome unit * (VVProtocol * W) :=
  match validate_dataset m self w with
  | (Raises e, w1) => (Raises e, (self, w1))
  | (Returns d, w1) =>
      let self1 := update_dataset self d in
      match validate_samples m self1 w1 with
      | (Raises e, w2) => (Raises e, (self1, w2))
      | (Returns s, w2) =>
          let self2 := update_sample self1 s in
          match validate_components m self2 w2 with
          | (Raises e, w3) => (Raises e, (self2, w3))
          | (Returns c, w3) => (Returns tt, (update_component self2 c, w3))
          end
      end
  end.
End VVProtocol.

Arguments VVFlags DS SM CP {_ _ _ _ _ _}.
Arguments VVProtocol DS SM CP {_ _ _ _ _ _}.
Arguments VVMethods DS SM CP {_ _ _ _ _ _} W.

(** The last character of a string, if it has one. *)
Fixpoint last_char (s : string) : option ascii :=
  match s with
  | EmptyString => None
  | String c EmptyString => Some c
  | String _ s' => last_char s'
  end.

(** ** A concrete scenario

    One dict object at address 0, [{GREEN: "ok", RED1: "missing {field}"}],
    and validation functions that return a GREEN flag, raise a [KeyError],
    or raise a [KeyboardInterrupt]. *)

Definition base_rt : Runtime :=
  {| validate_funcs := fun _ _ _ st => (Raises (TypeError "not a function"), st);
     strict_type_checks := fun _ => None;
     format_ext :=
       {| field_value := fun _ _ _ => Raises (ValueError "Invalid format specifier");
          field_render := fun _ _ => Raises (ValueError "Invalid format specifier") |} |}.

Definition demo_rt : Runtime :=
  {| validate_funcs := fun f self _ st =>
       if String.eqb f "green" then
         match Flag_init base_rt GREEN self ∅ st with
         | (Returns fl, st') => (Returns (RFlag fl), st')
         | (Raises e, st') => (Raises e, st')
         end
       else if String.eqb f "key_error" then (Raises (KeyError "'field'"), st)
       else if String.eqb f "interrupt" then (Raises (KeyboardInterrupt EmptyString), st)
       else (Raises (TypeError "not a function"), st);
     strict_type_checks := strict_type_checks base_rt;
     format_ext := format_ext base_rt |}.

Definition demo_dicts : gmap loc (gmap FlagCode string) :=
  {[ 0%nat := {[ GREEN := "ok"; RED1 := "missing {field}" ]} ]}.

Definition demo_config : gmap string pyval := {[ "x" := VStr "present" ]}.

(** The store after [Check(id="DATASET_METADATA_0001", description="Check {x}",
    config={"x": "present"}, flag_desc=<dict 0>, validate_func=f)]. *)
Definition demo_state (f : string) : State :=
  snd (Check_init demo_rt "Check {x}" "DATASET_METADATA_0001" 0 (Some f) [] demo_config
         (initial_state demo_dicts)).

(** The check that construction leaves at address 0, and its [flag_desc]
    dict, which has gained the DEV_UNHANDLED entry. *)
Definition demo_check (f : string) : Check :=
  {| description := "Check present"; id := "DATASET_METADATA_0001"; flag_desc := 0;
     validate_func := Some f; flags := []; config := demo_config;
     _proto_description := "Check {x}" |}.

Definition demo_flag_desc : gmap FlagCode string :=
  {[ GREEN := "ok"; RED1 := "missing {field}";
     DEV_UNHANDLED := DEV_UNHANDLED_TEMPLATE ]}.

(** A protocol over entities numbered by [nat], the rest of the state
    being a count of the calls made so far: [validate_dataset] reports a
    GREEN flag for entity 0 on its first call and a RED1 flag from then on;
    the other two methods report nothing. *)
Definition demo_green_flag : Flag :=
  {| code := GREEN; check := 0; message_args := ∅; message := "ok" |}.

Definition demo_red_flag : Flag :=
  {| code := RED1; check := 0; message_args := {[ "field" := VStr "x" ]};
     message := "missing x" |}.

Definition demo_methods : VVMethods nat nat nat nat :=
  {| expected_dataset_class := fun _ => true;
     validate_dataset := fun _ calls =>
       (Returns {[ 0%nat := [if Nat.eqb calls 0 then demo_green_flag else demo_red_flag] ]},
        S calls);
     validate_samples := fun _ calls => (Returns ∅, calls);
     validate_components := fun _ calls => (Returns ∅, calls) |}.

Definition demo_protocol : VVProtocol nat nat nat :=
  {| dataset := 0%nat;
     _flags := {| flags_dataset := ∅; flags_sample := ∅; flags_component := ∅ |} |}.

(** ** Templates of literal text and named fields *)

(** No brace at all. *)
Definition brace_free (s : string) : bool :=
  forallb (fun c => negb (Ascii.eqb c "{") && negb (Ascii.eqb c "}"))
    (list_ascii_of_string s).

(** The characters an argument name is made of. *)
Definition name_chars (s : string) : bool :=
  forallb (fun c => negb (Ascii.eqb c "{") && negb (Ascii.eqb c "}") && negb (ends_name c))
    (list_ascii_of_string s).

(** ** [dp_tools.bulkRNASeq.locaters] *)

Module Locaters.

(** The platform, as far as [os.path] shows it. *)
Inductive os_name := posix | nt.

Definition backslash : ascii := ascii_of_nat 92.

Definition os_sep (o : os_name) : ascii :=
  match o with
  | posix => "/"
  | nt => backslash
  end.

(** The characters [os.path] takes for separators. *)
Definition is_sep (o : os_name) (c : ascii) : bool :=
  match o with
  | posix => Ascii.eqb c "/"
  | nt => Ascii.eqb c backslash || Ascii.eqb c "/"
  end.

Definition starts_with_sep (o : os_name) (s : string) : bool :=
  match s with
  | String c _ => is_sep o c
  | EmptyString => false
  end.

Definition ends_with_sep (o : os_name) (s : string) : bool :=
  match last_char s with
  | Some c => is_sep o c
  | None => false
  end.

(** [os.path.join(a, *p)] for components without a drive, as all of this
    module's are: a component that starts with a separator restarts the
    path, any other is appended, after a separator unless the path is
    empty or ends with one. *)
Definition os_path_join (o : os_name) (a : string) (p : list string) : string :=
  fold_left
    (fun path b =>
       if starts_with_sep o b then b
       else if (String.length path =? 0)%nat || ends_with_sep o path then path +:+ b
       else path +:+ String (os_sep o) b)
    p a.

(** [s.replace(old, new)] for a single character [old]. *)
Fixpoint str_replace_char (old : ascii) (new : string) (s : string) : string :=
  match s with
  | EmptyString => EmptyString
  | String c s' =>
      if Ascii.eqb c old then new +:+ str_replace_char old new s'
      else String c (str_replace_char old new s')
  end.

(** [.replace("\\", r"\\")]: every backslash becomes two. *)
Definition escape_backslashes (s : string) : string :=
  str_replace_char backslash (String backslash (String backslash EmptyString)) s.

(** The separator as it stands in a pattern: doubled when it is the
    backslash. *)
Definition pattern_sep (o : os_name) : string :=
  escape_backslashes (String (os_sep o) EmptyString).

(** What the locators need of [pathlib.Path] and of the file system: the
    [/] operator, [exists()], [str()] and [repr()].  [exists()] answers
    [False] when the file system reports that the path is not there, and
    lets any other [OSError] of the underlying [stat] through. *)
Record PathOps (P : Type) := {
  truediv : P -> string -> P;
  path_exists : P -> outcome bool;
  path_str : P -> string;
  path_repr : P -> string
}.
Arguments truediv {P} _ _ _.
Arguments path_exists {P} _ _.
Arguments path_str {P} _ _.
Arguments path_repr {P} _ _.

Section locators.
Context {P : Type}.
Variable fs : PathOps P.
(** See [PyFormat.field_ops]; no template of this module has a field that
    reaches it. *)
Variable format_ext : field_ops.
Variable o : os_name.

(** From [putative_found = self.search_root / pattern] to the [return],
    the same lines in each of the four [find] methods.  The result comes
    with the records sent to the logger. *)
Definition exact_find (search_root : P) (pattern : string) (debug : string)
    : outcome P * list string :=
  let found := [] in
  let putative_found := truediv fs search_root pattern in
  match path_exists fs putative_found with
  | Raises e => (Raises e, [debug])
  | Returns there =>
      if negb there then
        (Raises (AssertionError
                   ("Target does not exist. Expected: " +:+ path_str fs putative_found
                    +:+ ". Pattern: " +:+ pattern)),
         [debug])
      else
        let found := found ++ [putative_found] in
        if negb (length found =? 1)%nat then
          (Raises (AssertionError
                     ("One and only find target should occur. Found: ["
                      +:+ String.concat ", " (path_repr fs <$> found)
                      +:+ "]. Pattern: " +:+ pattern)),
           [debug])
        else
          match found with
          | x :: _ => (Returns x, [debug])
          | [] => (Raises (IndexError "list index out of range"), [debug])
          end
  end.

(** What looking for [pattern] under [search_root] comes to: the joined
    path when [exists()] answers [True], the first assertion's error when
    it answers [False], and the error of [exists()] when it raises. *)
Definition locate (search_root : P) (pattern : string) : outcome P :=
  match path_exists fs (truediv fs search_root pattern) with
  | Raises e => Raises e
  | Returns true => Returns (truediv fs search_root pattern)
  | Returns false =>
      Raises (AssertionError
                ("Target does not exist. Expected: "
                 +:+ path_str fs (truediv fs search_root pattern)
                 +:+ ". Pattern: " +:+ pattern))
  end.

(** [MultiQCDir] *)

Definition MultiQCDir_EXACT_PATH_FORMAT : string :=
  os_path_join o "{rel_dir}" ["{mqc_label}_multiqc_report"].

Definition MultiQCDir_pattern (rel_dir mqc_label : string) : outcome string :=
  match str_format format_ext
          {[ "rel_dir" := VStr rel_dir; "mqc_label" := VStr mqc_label ]}
          MultiQCDir_EXACT_PATH_FORMAT with
  | Raises e => Raises e
  | Returns formatted => Returns (escape_backslashes formatted)
  end.

(** [rel_dir] is given by its [str()]. *)
Definition MultiQCDir_find (search_root : P) (rel_dir mqc_label : string)
    : outcome P * list string :=
  match MultiQCDir_pattern rel_dir mqc_label with
  | Raises e => (Raises e, [])
  | Returns pattern =>
      exact_find search_root pattern
        ("Locating multiQC direcotry MultiQCDir with pattern: " +:+ pattern)
  end.

(** [table[type[0]][type[1]]] on a two-level dict of templates. *)
Definition table_getitem (table : gmap string (gmap string string)) (type : string * string)
    : outcome string :=
  match table !! fst type with
  | None => Raises (KeyError ("'" +:+ fst type +:+ "'"))
  | Some inner =>
      match inner !! snd type with
      | None => Raises (KeyError ("'" +:+ snd type +:+ "'"))
      | Some template => Returns template
      end
  end.

(** [FastqcReport] *)

Definition FastqcReport_EXACT_PATH_FORMAT : gmap string (gmap string string) :=
  {[ "Raw" :=
       {[ "Forward" :=
            os_path_join o "00-RawData" ["FastQC_Reports"; "{sample_name}_R1_raw_fastqc.{ext}"];
          "Reverse" :=
            os_path_join o "00-RawData" ["FastQC_Reports"; "{sample_name}_R2_raw_fastqc.{ext}"] ]};
     "Trimmed" :=
       {[ "Forward" :=
            os_path_join o "01-TG_Preproc"
              ["FastQC_Reports"; "{sample_name}_R1_trimmed_fastqc.{ext}"];
          "Reverse" :=
            os_path_join o "01-TG_Preproc"
              ["FastQC_Reports"; "{sample_name}_R2_trimmed_fastqc.{ext}"] ]} ]}.

Definition FastqcReport_pattern (sample_name : string) (type : string * string) (ext : string)
    : outcome string :=
  match table_getitem FastqcReport_EXACT_PATH_FORMAT type with
  | Raises e => Raises e
  | Returns template =>
      match str_format format_ext
              {[ "sample_name" := VStr sample_name; "ext" := VStr ext ]} template with
      | Raises e => Raises e
      | Returns formatted => Returns (escape_backslashes formatted)
      end
  end.

Definition FastqcReport_find (search_root : P) (sample_name : string)
    (type : string * string) (ext : string) : outcome P * list string :=
  match FastqcReport_pattern sample_name type ext with
  | Raises e => (Raises e, [])
  | Returns pattern =>
      exact_find search_root pattern
        ("Locating raw fastqgz file " +:+ sample_name +:+ " with pattern: " +:+ pattern)
  end.

(** [Runsheet]: here the backslashes of the template are doubled when the
    class is created, before any name is filled in. *)

Definition Runsheet_EXACT_PATH_FORMAT : string :=
  escape_backslashes
    (os_path_join o "Metadata"
       ["AST_autogen_template_RNASeq_RCP_{datasystem_name}_RNASeq_runsheet.csv"]).

Definition Runsheet_pattern (datasystem_name : string) : outcome string :=
  str_format format_ext {[ "datasystem_name" := VStr datasystem_name ]}
    Runsheet_EXACT_PATH_FORMAT.

Definition Runsheet_find (search_root : P) (datasystem_name : string)
    : outcome P * list string :=
  match Runsheet_pattern datasystem_name with
  | Raises e => (Raises e, [])
  | Returns pattern =>
      exact_find search_root pattern
        ("Locating Runsheet file " +:+ datasystem_name +:+ " with pattern: " +:+ pattern)
  end.

(** [Fastq] *)

Definition Fastq_EXACT_PATH_FORMAT : gmap string (gmap string string) :=
  {[ "Raw" :=
       {[ "Forward" := os_path_join o "00-RawData" ["Fastq"; "{sample_name}_R1_raw.fastq.gz"];
          "Reverse" := os_path_join o "00-RawData" ["Fastq"; "{sample_name}_R2_raw.fastq.gz"] ]};
     "Trimmed" :=
       {[ "Forward" :=
            os_path_join o "01-TG_Preproc" ["Fastq"; "{sample_name}_R1_trimmed.fastq.gz"];
          "Reverse" :=
            os_path_join o "01-TG_Preproc" ["Fastq"; "{sample_name}_R2_trimmed.fastq.gz"] ]} ]}.

Definition Fastq_pattern (sample_name : string) (type : string * string) : outcome string :=
  match table_getitem Fastq_EXACT_PATH_FORMAT type with
  | Raises e => Raises e
  | Returns template =>
      match str_format format_ext {[ "sample_name" := VStr sample_name ]} template with
      | Raises e => Raises e
      | Returns formatted => Returns (escape_backslashes formatted)
      end
  end.

Definition Fastq_find (search_root : P) (sample_name : string) (type : string * string)
    : outcome P * list string :=
  match Fastq_pattern sample_name type with
  | Raises e => (Raises e, [])
  | Returns pattern =>
      exact_find search_root pattern
        ("Locating raw fastqgz file " +:+ sample_name +:+ " with pattern: " +:+ pattern)
  end.
End locators.

End Locaters.

(** The error of [stat] on a name the file system finds too long. *)
Definition ENAMETOOLONG (p : string) : exn :=
  OSError ("[Errno 36] File name too long: '" +:+ p +:+ "'").

(** A file system of strings: [/] joins with a slash, two files exist,
    and a path of more than 255 characters is refused. *)
Definition demo_fs : Locaters.PathOps string :=
  {| Locaters.truediv := fun root pattern => root +:+ "/" +:+ pattern;
     Locaters.path_exists := fun p =>
       if (255 <? String.length p)%nat then Raises (ENAMETOOLONG p)
       else
         Returns
           (bool_decide
              (p ∈ ["/data/00-RawData/Fastq/s1_R1_raw.fastq.gz";
                    "/data/Metadata/AST_autogen_template_RNASeq_RCP_GLDS-1_RNASeq_runsheet.csv"]));
     Locaters.path_str := fun p => p;
     Locaters.path_repr := fun p => "PosixPath('" +:+ p +:+ "')" |}.

(** A sample name of 300 characters. *)
Definition long_name : string := string_of_list_ascii (replicate 300 "a"%char).

(** Values with one accessor and one format spec: the item [x}{n}y] of a
    dict object is the string [v], and a string takes a width. *)
Definition demo_ops : field_ops :=
  {| field_value := fun obj rest conv =>
       match obj, conv with
       | VObj _, None =>
           if String.eqb rest "[x}{n}y]" then Returns (VStr "v")
           else Raises (KeyError ("'" +:+ rest +:+ "'"))
       | _, _ => Raises (TypeError "unsupported")
       end;
     field_render := fun obj spec =>
       match obj with
       | VStr text =>
           if is_index spec then
             match get_integer 0 (list_ascii_of_string spec) with
             | Returns width =>
                 Returns (text +:+ string_of_list_ascii
                                     (replicate (N.to_nat width - String.length text) " "%char))
             | Raises e => Raises e
             end
           else Raises (ValueError "Invalid format specifier")
       | _ => Raises (TypeError "unsupported format string")
       end |}.

(** The store after a check without a validation function has been
    constructed, and the store of a check whose shared dict has lost every
    entry. *)
Definition demo_state_none : State :=
  snd (Check_init demo_rt "Check {x}" "DATASET_METADATA_0001" 0 None [] demo_config
         (initial_state demo_dicts)).

Definition demo_check_none : Check :=
  {| description := "Check present"; id := "DATASET_METADATA_0001"; flag_desc := 0;
     validate_func := None; flags := []; config := demo_config;
     _proto_description := "Check {x}" |}.

Definition demo_state_cleared : State :=
  set_dicts (demo_state "key_error") {[ 0%nat := ∅ ]}.

(** A runtime whose strict type check refuses every flag. *)
Definition strict_rt : Runtime :=
  {| validate_funcs := validate_funcs base_rt;
     strict_type_checks := fun _ => Some (TypeError "type mismatch");
     format_ext := format_ext base_rt |}.

(** A protocol that already holds the RED1 flag for entity 0. *)
Definition demo_protocol_red : VVProtocol nat nat nat :=
  {| dataset := 0%nat;
     _flags := {| flags_dataset := {[ 0%nat := [demo_red_flag] ]};
                  flags_sample := ∅; flags_component := ∅ |} |}.

(** * Properties *)

(** ** The matcher decides the language *)

Module ReFacts.
Import Re.

Lemma append_nil_l (s : string) : EmptyString +:+ s = s.
Proof. reflexivity. Qed.

Lemma append_cons c (s t : string) : String c s +:+ t = String c (s +:+ t).
Proof. reflexivity. Qed.

Lemma append_empty_r (s : string) : s +:+ EmptyString = s.
Proof.
  induction s as [|c s IH]; [reflexivity | now rewrite append_cons, IH].
Qed.

Lemma append_assoc (s1 s2 s3 : string) : (s1 +:+ s2) +:+ s3 = s1 +:+ (s2 +:+ s3).
Proof.
  induction s1 as [|c s1 IH]; [reflexivity | now rewrite !append_cons, IH].
Qed.

Lemma append_eq_empty (s1 s2 : string) :
  s1 +:+ s2 = EmptyString -> s1 = EmptyString /\ s2 = EmptyString.
Proof. destruct s1; [auto | rewrite append_cons; discriminate]. Qed.

Lemma append_eq_cons (s1 s2 : string) c s :
  s1 +:+ s2 = String c s ->
  (s1 = EmptyString /\ s2 = String c s) \/
  (exists s1', s1 = String c s1' /\ s = s1' +:+ s2).
Proof.
  destruct s1 as [|c1 s1]; intros E.
  - left; auto.
  - right. rewrite append_cons in E. injection E as -> <-. eauto.
Qed.

Lemma nullable_lang r : nullable r = true <-> lang r EmptyString.
Proof.
  split.
  - induction r; simpl; intros E; try discriminate.
    + constructor.
    + apply andb_prop in E as [E1 E2].
      change EmptyString with (EmptyString +:+ EmptyString). constructor; auto.
    + apply orb_prop in E as [E|E]; [apply lang_alt_l | apply lang_alt_r]; auto.
    + constructor.
  - intros L. remember EmptyString as s eqn:Es.
    induction L; simpl; subst; try reflexivity; try discriminate.
    + apply append_eq_empty in Es as [-> ->]. rewrite IHL1, IHL2; auto.
    + rewrite IHL; auto.
    + rewrite IHL; auto. apply orb_true_r.
Qed.

Lemma deriv_sound c r : forall s, lang (deriv c r) s -> lang r (String c s).
Proof.
  induction r; simpl; intros s L.
  - inversion L.
  - inversion L.
  - destruct (p c) eqn:Ep; inversion L; subst. now constructor.
  - assert (Hcat : forall t, lang (Cat (deriv c r1) r2) t -> lang (Cat r1 r2) (String c t)).
    { intros t Lt. inversion Lt; subst.
      change (String c (s1 +:+ s2)) with (String c s1 +:+ s2). constructor; auto. }
    destruct (nullable r1) eqn:En; [|auto].
    inversion L; subst; [auto|].
    change (String c s) with (EmptyString +:+ String c s).
    constructor; [now apply nullable_lang | auto].
  - inversion L; subst; [apply lang_alt_l | apply lang_alt_r]; auto.
  - inversion L; subst.
    change (String c (s1 +:+ s2)) with (String c s1 +:+ s2). constructor; auto.
Qed.

Lemma deriv_complete c r t : lang r t -> forall u, t = String c u -> lang (deriv c r) u.
Proof.
  induction 1; intros u E; simpl.
  - discriminate.
  - injection E as -> <-. rewrite H. constructor.
  - apply append_eq_cons in E as [[-> ->] | (s1' & -> & ->)].
    + apply nullable_lang in H as ->. apply lang_alt_r. auto.
    + assert (L : lang (Cat (deriv c r1) r2) (s1' +:+ s2)) by (constructor; auto).
      destruct (nullable r1); [apply lang_alt_l|]; exact L.
  - apply lang_alt_l; auto.
  - apply lang_alt_r; auto.
  - discriminate.
  - apply append_eq_cons in E as [[-> ->] | (s1' & -> & ->)].
    + now apply IHlang2.
    + constructor; auto.
Qed.

Lemma fullmatch_lang s : forall r, fullmatch r s = true <-> lang r s.
Proof.
  induction s as [|c s IH]; intros r; simpl.
  - apply nullable_lang.
  - rewrite IH. split; [apply deriv_sound | intros L; eapply deriv_complete; eauto].
Qed.

Lemma lang_cat_inv r1 r2 s :
  lang (Cat r1 r2) s <-> exists s1 s2, s = s1 +:+ s2 /\ lang r1 s1 /\ lang r2 s2.
Proof.
  split.
  - inversion 1; subst; eauto.
  - intros (s1 & s2 & -> & L1 & L2). now constructor.
Qed.

Lemma lang_alt_inv r1 r2 s : lang (Alt r1 r2) s <-> lang r1 s \/ lang r2 s.
Proof.
  split.
  - inversion 1; subst; auto.
  - intros [L|L]; [apply lang_alt_l | apply lang_alt_r]; auto.
Qed.

Lemma lang_class_inv p s :
  lang (Class p) s <-> exists c, s = String c EmptyString /\ p c = true.
Proof.
  split.
  - inversion 1; subst; eauto.
  - intros (c & -> & E). now constructor.
Qed.

Lemma lang_eps_inv s : lang Eps s <-> s = EmptyString.
Proof. split; [now inversion 1 | intros ->; constructor]. Qed.

Lemma lang_chr c s : lang (chr c) s <-> s = String c EmptyString.
Proof.
  unfold chr. rewrite lang_class_inv. split.
  - intros (c' & -> & E). apply Ascii.eqb_eq in E. now subst.
  - intros ->. exists c. split; [reflexivity | apply Ascii.eqb_refl].
Qed.

Lemma lang_lit w s : lang (lit w) s <-> s = w.
Proof.
  revert s. induction w as [|c w IH]; intros s; simpl.
  - apply lang_eps_inv.
  - rewrite lang_cat_inv. split.
    + intros (s1 & s2 & -> & L1 & L2).
      apply lang_chr in L1 as ->. apply IH in L2 as ->. reflexivity.
    + intros ->. exists (String c EmptyString), w.
      split; [reflexivity | split; [now apply lang_chr | now apply IH]].
Qed.

Lemma lang_star_class p s :
  lang (Star (Class p)) s <-> forallb p (list_ascii_of_string s) = true.
Proof.
  split.
  - intros L. remember (Star (Class p)) as r eqn:Er.
    induction L as [| | | | | |r0 s1 s2 L1 _ L2 IH2]; try discriminate; injection Er as ->.
    + reflexivity.
    + apply lang_class_inv in L1 as (c & -> & E). simpl. rewrite E. simpl. auto.
  - induction s as [|c s IH]; simpl; intros E.
    + constructor.
    + apply andb_prop in E as [E1 E2].
      change (String c s) with (String c EmptyString +:+ s).
      constructor; [now constructor | auto].
Qed.

Lemma lang_dollar s : lang dollar s <-> s = EmptyString \/ s = String newline EmptyString.
Proof.
  unfold dollar. rewrite lang_alt_inv, lang_chr.
  split; (intros [L|L]; [left | right]; auto).
  - now inversion L.
  - subst. constructor.
Qed.
End ReFacts.

(** ** The id assertion *)

Section CheckId.
Import Re ReFacts.

Lemma last_char_snoc (s : string) c : last_char (s +:+ String c EmptyString) = Some c.
Proof.
  induction s as [|a s IH]; [reflexivity|].
  rewrite append_cons. simpl. rewrite IH.
  destruct s; reflexivity.
Qed.

Lemma lang_four_digits s :
  lang (Cat digit (Cat digit (Cat digit (Cat digit dollar)))) s <->
  exists digits tail,
    s = digits +:+ tail /\ String.length digits = 4%nat /\
    forallb is_digit (list_ascii_of_string digits) = true /\
    (tail = EmptyString \/ tail = String newline EmptyString).
Proof.
  unfold digit. split.
  - intros L.
    apply lang_cat_inv in L as (x1 & r1 & -> & L1 & L).
    apply lang_cat_inv in L as (x2 & r2 & -> & L2 & L).
    apply lang_cat_inv in L as (x3 & r3 & -> & L3 & L).
    apply lang_cat_inv in L as (x4 & tail & -> & L4 & L).
    apply lang_class_inv in L1 as (d1 & -> & E1).
    apply lang_class_inv in L2 as (d2 & -> & E2).
    apply lang_class_inv in L3 as (d3 & -> & E3).
    apply lang_class_inv in L4 as (d4 & -> & E4).
    apply lang_dollar in L.
    exists (String d1 (String d2 (String d3 (String d4 EmptyString)))), tail.
    split; [reflexivity|]. split; [reflexivity|]. split; [|exact L].
    simpl. now rewrite E1, E2, E3, E4.
  - intros (digits & tail & -> & Hlen & Hd & Ht).
    destruct digits as [|d1 [|d2 [|d3 [|d4 [|? ?]]]]]; try discriminate.
    simpl in Hd.
    apply andb_prop in Hd as [E1 Hd]. apply andb_prop in Hd as [E2 Hd].
    apply andb_prop in Hd as [E3 Hd]. apply andb_prop in Hd as [E4 _].
    apply lang_dollar in Ht.
    change (String d1 (String d2 (String d3 (String d4 EmptyString))) +:+ tail)
      with (String d1 EmptyString +:+ String d2 EmptyString +:+
            String d3 EmptyString +:+ String d4 EmptyString +:+ tail).
    repeat (constructor; [now constructor|]). exact Ht.
Qed.

Lemma lang_scope s :
  lang (Alt (lit "COMPONENT") (Alt (lit "SAMPLE") (lit "DATASET"))) s <-> s ∈ SCOPES.
Proof.
  rewrite !lang_alt_inv, !lang_lit. unfold SCOPES.
  rewrite !elem_of_cons, elem_of_nil. tauto.
Qed.

(** What the pattern accepts: the format of [pattern_id_format], and the
    same followed by one newline. *)
Lemma check_id_pattern_lang id :
  re_match_check_id id = true <->
  exists scope word digits tail,
    id = scope +:+ "_" +:+ word +:+ "_" +:+ digits +:+ tail /\
    scope ∈ SCOPES /\
    forallb (fun c => negb (is_digit c)) (list_ascii_of_string word) = true /\
    String.length digits = 4%nat /\
    forallb is_digit (list_ascii_of_string digits) = true /\
    (tail = EmptyString \/ tail = String newline EmptyString).
Proof.
  unfold re_match_check_id. rewrite fullmatch_lang. unfold check_id_pattern.
  split.
  - intros L.
    apply lang_cat_inv in L as (scope & r1 & -> & Ls & L).
    apply lang_cat_inv in L as (u1 & r2 & -> & Lu1 & L).
    apply lang_cat_inv in L as (word & r3 & -> & Lw & L).
    apply lang_cat_inv in L as (u2 & r4 & -> & Lu2 & L).
    apply lang_chr in Lu1 as ->. apply lang_chr in Lu2 as ->.
    apply lang_scope in Ls. apply lang_star_class in Lw.
    apply lang_four_digits in L as (digits & tail & -> & Hlen & Hd & Ht).
    exists scope, word, digits, tail. repeat split; auto.
  - intros (scope & word & digits & tail & -> & Hs & Hw & Hlen & Hd & Ht).
    constructor; [now apply lang_scope|].
    constructor; [now apply lang_chr|].
    constructor; [now apply lang_star_class|].
    constructor; [now apply lang_chr|].
    apply lang_four_digits. exists digits, tail. auto.
Qed.

Lemma check_id_no_newline id :
  last_char id <> Some newline ->
  (re_match_check_id id = true <-> pattern_id_format id).
Proof.
  intros Hnl. rewrite check_id_pattern_lang. unfold pattern_id_format. split.
  - intros (scope & word & digits & tail & E & Hs & Hw & Hlen & Hd & [->| ->]).
    + rewrite append_empty_r in E. eauto 10.
    + exfalso. apply Hnl. rewrite E.
      rewrite <- !append_assoc. apply last_char_snoc.
  - intros (scope & word & digits & E & Hs & Hw & Hlen & Hd).
    exists scope, word, digits, EmptyString. rewrite append_empty_r. auto 10.
Qed.
End CheckId.

Section CheckIdStep.
Variable rt : Runtime.

Lemma Check_init_id_step description i flag_desc validate_func flags config st formatted :
  str_format (format_ext rt) config description = Returns formatted ->
  (Check_init rt description i flag_desc validate_func flags config st
     = (Raises (AssertionError CHECK_ID_MESSAGE), st)
   <-> re_match_check_id i = false).
Proof.
  intros Hf. unfold Check_init, Check_register. rewrite Hf. cbn [id].
  destruct (re_match_check_id i); cbn [negb].
  - split; [|discriminate]. intros E. exfalso.
    case_bool_decide.
    + injection E as E. discriminate E.
    + destruct (dicts _ !! _); discriminate E.
  - split; reflexivity.
Qed.

(** Claim C5 (amended).  For an id that does not end in a newline, and once
    the description has been formatted, construction fails at the id
    assertion exactly when the id is not a scope word COMPONENT, SAMPLE or
    DATASET, an underscore, a run of non-digit characters (it may be
    empty), an underscore and exactly four digits. *)
Theorem Check_id_format_step description id flag_desc validate_func flags config st formatted :
  str_format (format_ext rt) config description = Returns formatted ->
  last_char id <> Some Re.newline ->
  (pattern_id_format id <-> re_match_check_id id = true) /\
  (Check_init rt description id flag_desc validate_func flags config st
     = (Raises (AssertionError CHECK_ID_MESSAGE), st)
   <-> ~ pattern_id_format id).
Proof.
  intros Hf Hnl.
  pose proof (check_id_no_newline id Hnl) as Hp.
  split; [symmetry; exact Hp|].
  rewrite (Check_init_id_step _ _ _ _ _ _ _ _ Hf), <- Hp.
  destruct (re_match_check_id id); split; congruence.
Qed.
End CheckIdStep.

Lemma Check_id_format_step_witness :
  (pattern_id_format "SAMPLE_X_0001" <-> re_match_check_id "SAMPLE_X_0001" = true) /\
  (Check_init demo_rt "Check {x}" "SAMPLE_X_0001" 0 None [] demo_config (initial_state demo_dicts)
     = (Raises (AssertionError CHECK_ID_MESSAGE), initial_state demo_dicts)
   <-> ~ pattern_id_format "SAMPLE_X_0001").
Proof.
  apply (Check_id_format_step demo_rt "Check {x}" "SAMPLE_X_0001" 0 None [] demo_config
           (initial_state demo_dicts) "Check present").
  - vm_compute. reflexivity.
  - vm_compute. discriminate.
Defined.

(** Claim C5 as first stated fails in both directions: an id of the form
    SCOPE_WORD_NNNN whose word holds a digit is refused, and an id with a
    newline after the four digits is accepted. *)
Lemma Check_id_format_counterexample :
  (spec_id_format "SAMPLE_R1_0001" = true /\
   Check_init demo_rt "Check {x}" "SAMPLE_R1_0001" 0 None [] demo_config (initial_state demo_dicts)
     = (Raises (AssertionError CHECK_ID_MESSAGE), initial_state demo_dicts)) /\
  (spec_id_format ("SAMPLE_X_0001" +:+ String Re.newline EmptyString) = false /\
   fst (Check_init demo_rt "Check {x}" ("SAMPLE_X_0001" +:+ String Re.newline EmptyString)
          0 None [] demo_config (initial_state demo_dicts)) = Returns 0%nat).
Proof. vm_compute. auto. Qed.

(** ** [str.format] and the keys a template refers to *)

Section FormatFacts.
Variable ext : field_ops.






Lemma split_first_name name :
  forallb (fun c => negb (Ascii.eqb c "." || Ascii.eqb c "[")) (list_ascii_of_string name) = true ->
  split_first name = (name, EmptyString).
Proof.
  induction name as [|c name IH]; [reflexivity|].
  cbn [list_ascii_of_string forallb split_first]. intros H.
  apply andb_prop in H as [Hc H]. apply negb_true_iff in Hc.
  rewrite Hc, (IH H). reflexivity.
Qed.

(** A plain field is replaced by the text of its argument. *)
Lemma render_field_plain (kw : gmap string pyval) expand f :
  plain_field f = true ->
  field_keys f = [field_name f] /\
  render_field ext kw expand f
  = match kw !! field_name f with
    | Some v => Returns (py_str v)
    | None => Raises (KeyError ("'" +:+ field_name f +:+ "'"))
    end.
Proof.
  unfold plain_field. intros H.
  apply andb_prop in H as [H He]. apply andb_prop in H as [H Hs].
  apply andb_prop in H as [H Hc]. apply andb_prop in H as [Hi Hn].
  apply negb_true_iff in Hi, He.
  apply bool_decide_eq_true in Hs, Hc.
  unfold field_keys, render_field. rewrite (split_first_name _ Hn). cbn [fst].
  rewrite Hi. split; [reflexivity|].
  unfold get_value. rewrite Hi, Hc, He, Hs.
  destruct (kw !! field_name f); reflexivity.
Qed.




End FormatFacts.

(** ** Literal text and named fields under [str.format] *)

Section FormatTemplates.
Variable ext : field_ops.
Variable kw : gmap string pyval.

Lemma snoc_append (s : string) c (t : string) : snoc s c +:+ t = s +:+ String c t.
Proof. unfold snoc. now rewrite ReFacts.append_assoc. Qed.

(** Brace-free text is read as literal characters. *)
Lemma parse_text lit rest :
  brace_free lit = true ->
  parse_from Text (lit +:+ rest)
  = (map Literal (list_ascii_of_string lit) ++ fst (parse_from Text rest),
     snd (parse_from Text rest)).
Proof.
  unfold brace_free. induction lit as [|c lit IH]; intros Hb.
  - rewrite ReFacts.append_nil_l. now destruct (parse_from Text rest).
  - cbn [list_ascii_of_string forallb] in Hb.
    apply andb_prop in Hb as [Hc Hb]. apply andb_prop in Hc as [Ho Hcl].
    apply negb_true_iff in Ho, Hcl.
    rewrite ReFacts.append_cons. cbn [parse_from]. rewrite Ho, Hcl.
    rewrite IH by exact Hb. reflexivity.
Qed.

Lemma parse_text_end lit :
  brace_free lit = true ->
  parse_from Text lit = (map Literal (list_ascii_of_string lit), None).
Proof.
  intros Hb. rewrite <- (ReFacts.append_empty_r lit) at 1.
  rewrite parse_text by exact Hb. cbn [parse_from at_end fst snd].
  now rewrite app_nil_r.
Qed.

(** Inside a field, the characters of a name are collected up to the
    closing brace. *)
Lemma parse_field_name name : forall acc rest,
  name_chars name = true ->
  parse_from (FieldName acc) (name +:+ String "}" rest)
  = emit (Markup {| field_name := acc +:+ name; conversion := None;
                    format_spec := EmptyString; needs_expanding := false |})
      (parse_from Text rest).
Proof.
  unfold name_chars. induction name as [|c name IH]; intros acc rest Hn.
  - rewrite ReFacts.append_nil_l, ReFacts.append_empty_r. reflexivity.
  - cbn [list_ascii_of_string forallb] in Hn.
    apply andb_prop in Hn as [Hc Hn]. apply andb_prop in Hc as [Hc He].
    apply andb_prop in Hc as [Ho Hcl]. apply negb_true_iff in Ho, Hcl, He.
    unfold ends_name in He. apply orb_false_elim in He as [He Hcolon].
    apply orb_false_elim in He as [He Hbang]. apply orb_false_elim in He as [Hdot Hbr].
    rewrite ReFacts.append_cons. cbn [parse_from]. rewrite Ho, Hcl, Hbr, Hcolon, Hbang.
    rewrite IH by exact Hn. now rewrite snoc_append.
Qed.

Lemma parse_field name rest :
  name_chars name = true -> is_index name = false ->
  parse_from Text (String "{" (name +:+ String "}" rest))
  = emit (Markup {| field_name := name; conversion := None;
                    format_spec := EmptyString; needs_expanding := false |})
      (parse_from Text rest).
Proof.
  intros Hn Hi.
  assert (E : parse_from Text (String "{" (name +:+ String "}" rest))
              = parse_from (FieldName EmptyString) (name +:+ String "}" rest)).
  { destruct name as [|c name]; [discriminate Hi|].
    unfold name_chars in Hn. cbn [list_ascii_of_string forallb] in Hn.
    apply andb_prop in Hn as [Hc _]. apply andb_prop in Hc as [Hc _].
    apply andb_prop in Hc as [Ho _]. apply negb_true_iff in Ho.
    rewrite ReFacts.append_cons. cbn [parse_from Ascii.eqb Bool.eqb].
    now rewrite Ho. }
  rewrite E, parse_field_name by exact Hn. now rewrite ReFacts.append_nil_l.
Qed.

Lemma name_chars_plain name :
  name_chars name = true ->
  forallb (fun c => negb (Ascii.eqb c "." || Ascii.eqb c "[")) (list_ascii_of_string name) = true.
Proof.
  unfold name_chars. induction (list_ascii_of_string name) as [|c l IH]; [reflexivity|].
  cbn [forallb]. intros H. apply andb_prop in H as [Hc H].
  apply andb_prop in Hc as [_ He]. apply negb_true_iff in He.
  unfold ends_name in He. apply orb_false_elim in He as [He _].
  apply orb_false_elim in He as [He _]. rewrite He, (IH H). reflexivity.
Qed.

(** A field [{name}] whose name the keyword arguments have is replaced by
    the value's text. *)
Lemma render_named_field expand name v :
  name_chars name = true -> is_index name = false -> kw !! name = Some v ->
  render_field ext kw expand
    {| field_name := name; conversion := None;
       format_spec := EmptyString; needs_expanding := false |}
  = Returns (py_str v).
Proof.
  intros Hn Hi Hv.
  destruct (render_field_plain ext kw expand
              {| field_name := name; conversion := None;
                 format_spec := EmptyString; needs_expanding := false |}) as [_ ->].
  - unfold plain_field. cbn [field_name conversion format_spec needs_expanding].
    rewrite Hi, (name_chars_plain _ Hn). reflexivity.
  - cbn [field_name]. now rewrite Hv.
Qed.

Lemma render_literals expand l : forall items out,
  render_items ext kw expand (map Literal l ++ items) out
  = render_items ext kw expand items (out +:+ string_of_list_ascii l).
Proof.
  induction l as [|c l IH]; intros items out; cbn [map app render_items string_of_list_ascii].
  - now rewrite ReFacts.append_empty_r.
  - now rewrite IH, snoc_append.
Qed.

Lemma render_text expand lit items out :
  render_items ext kw expand (map Literal (list_ascii_of_string lit) ++ items) out
  = render_items ext kw expand items (out +:+ lit).
Proof. now rewrite render_literals, string_of_list_ascii_of_string. Qed.

(** Text without braces is its own formatting. *)
Lemma format_brace_free template :
  brace_free template = true -> str_format ext kw template = Returns template.
Proof.
  intros Hb. unfold str_format, format_with.
  rewrite parse_text_end by exact Hb. cbn [fst snd].
  rewrite <- (app_nil_r (map _ _)), render_text. reflexivity.
Qed.

(** A template of brace-free text around one field. *)
Lemma format_one_field pre name suf v :
  brace_free pre = true -> brace_free suf = true ->
  name_chars name = true -> is_index name = false -> kw !! name = Some v ->
  str_format ext kw (pre +:+ String "{" (name +:+ String "}" suf))
  = Returns (pre +:+ py_str v +:+ suf).
Proof.
  intros Hp Hs Hn Hi Hv. unfold str_format, format_with.
  rewrite parse_text by exact Hp. rewrite parse_field by assumption.
  rewrite parse_text_end by exact Hs. cbn [fst snd emit].
  rewrite render_text. cbn [render_items].
  rewrite (render_named_field _ name v) by assumption.
  rewrite <- (app_nil_r (map _ _)), render_text. cbn [render_items].
  now rewrite ReFacts.append_nil_l, ReFacts.append_assoc.
Qed.

(** A template of brace-free text around two fields. *)
Lemma format_two_fields pre n1 mid n2 suf v1 v2 :
  brace_free pre = true -> brace_free mid = true -> brace_free suf = true ->
  name_chars n1 = true -> is_index n1 = false -> kw !! n1 = Some v1 ->
  name_chars n2 = true -> is_index n2 = false -> kw !! n2 = Some v2 ->
  str_format ext kw
    (pre +:+ String "{" (n1 +:+ String "}" (mid +:+ String "{" (n2 +:+ String "}" suf))))
  = Returns (pre +:+ py_str v1 +:+ mid +:+ py_str v2 +:+ suf).
Proof.
  intros Hp Hm Hs Hn1 Hi1 Hv1 Hn2 Hi2 Hv2. unfold str_format, format_with.
  rewrite parse_text by exact Hp. rewrite parse_field by assumption.
  cbn [emit fst snd].
  rewrite parse_text by exact Hm. rewrite parse_field by assumption.
  rewrite parse_text_end by exact Hs. cbn [fst snd emit].
  rewrite render_text. cbn [render_items].
  rewrite (render_named_field _ n1 v1) by assumption.
  rewrite render_text. cbn [render_items].
  rewrite (render_named_field _ n2 v2) by assumption.
  rewrite <- (app_nil_r (map _ _)), render_text. cbn [render_items].
  now rewrite ReFacts.append_nil_l, !ReFacts.append_assoc.
Qed.
End FormatTemplates.

(** ** The store under construction of checks and flags *)

Section StoreFacts.
Variable rt : Runtime.

Lemma fresh_check_unused (st : State) : checks st !! fresh (dom (checks st)) = None.
Proof. apply not_elem_of_dom, is_fresh. Qed.

Lemma Check_register_returns self st l st' :
  Check_register self st = (Returns l, st') <->
  re_match_check_id (id self) = true /\ (id self ∉ registered_ids st) /\
  l = fresh (dom (checks st)) /\
  exists d, dicts st !! flag_desc self = Some d /\ st' = registered self d st.
Proof.
  unfold Check_register, registered.
  destruct (re_match_check_id (id self)); cbn [negb].
  2: { split; [discriminate | intros (? & _); discriminate]. }
  case_bool_decide as Hdup.
  { split; [discriminate | intros (_ & Hn & _); contradiction]. }
  cbn [dicts set_checks].
  destruct (dicts st !! flag_desc self) as [d|] eqn:Ed.
  - split.
    + intros E. injection E as <- <-. eauto 10.
    + intros (_ & _ & -> & d' & Ed' & ->). injection Ed' as <-. reflexivity.
  - split; [discriminate | intros (_ & _ & _ & d' & Ed' & _); discriminate].
Qed.

(** A failed registration changes the store only when the check could
    be appended to [allChecks] and its [flag_desc] is no dict. *)
Lemma Check_register_raises self st e st' :
  Check_register self st = (Raises e, st') ->
  st' = st \/
  ((id self ∉ registered_ids st) /\ dicts st !! flag_desc self = None /\
   st' = set_checks st [fresh (dom (checks st))]
           (<[fresh (dom (checks st)) := self]> (checks st))).
Proof.
  unfold Check_register.
  destruct (negb _); [intros E; injection E as _ <-; now left|].
  case_bool_decide as Hdup; [intros E; injection E as _ <-; now left|].
  cbn [dicts set_checks].
  destruct (dicts st !! flag_desc self) eqn:Ed; [discriminate|].
  intros E. injection E as _ <-. right. auto.
Qed.

Lemma omap_ext_elem {A B} (f g : A -> option B) (l : list A) :
  (forall x, x ∈ l -> f x = g x) -> omap f l = omap g l.
Proof.
  induction l as [|a l IH]; intros Hfg; [reflexivity|].
  cbn [omap list_omap]. rewrite (Hfg a) by (left).
  rewrite IH; [reflexivity|]. intros x Hx. apply Hfg. now right.
Qed.

Lemma registered_ids_elem st i :
  i ∈ registered_ids st <->
  exists l c, l ∈ allChecks st /\ checks st !! l = Some c /\ id c = i.
Proof.
  unfold registered_ids. rewrite list_elem_of_omap. split.
  - intros (l & Hl & E). destruct (checks st !! l) as [c|] eqn:Ec; [|discriminate].
    injection E as <-. eauto.
  - intros (l & c & Hl & Ec & <-). exists l. rewrite Ec. auto.
Qed.

(** Appending a new check at an unused address appends its id. *)
Lemma registered_ids_append st l self :
  (forall l', l' ∈ allChecks st -> is_Some (checks st !! l')) ->
  checks st !! l = None ->
  registered_ids (set_checks st [l] (<[l := self]> (checks st)))
    = registered_ids st ++ [id self].
Proof.
  intros Hwf Hl. unfold registered_ids. cbn [allChecks checks set_checks].
  rewrite omap_app. f_equal.
  - apply omap_ext_elem. intros l' Hl'.
    rewrite lookup_insert_ne; [reflexivity|].
    intros <-. destruct (Hwf _ Hl') as [c Hc]. congruence.
  - cbn [omap list_omap]. now rewrite lookup_insert_eq.
Qed.

(** Replacing a check by one with the same id leaves the ids alone. *)
Lemma registered_ids_replace st l c c' :
  checks st !! l = Some c -> id c' = id c ->
  registered_ids (set_checks st [] (<[l := c']> (checks st))) = registered_ids st.
Proof.
  intros Hl Hid. unfold registered_ids. cbn [allChecks checks set_checks].
  rewrite app_nil_r. apply omap_ext_elem. intros l' _.
  destruct (decide (l = l')) as [<-|Hne].
  - rewrite lookup_insert_eq, Hl. cbn. now rewrite Hid.
  - now rewrite lookup_insert_ne.
Qed.

Lemma registered_ids_set_dicts st ds : registered_ids (set_dicts st ds) = registered_ids st.
Proof. reflexivity. Qed.

Lemma registered_ids_log st msg l : registered_ids (log_critical st msg l) = registered_ids st.
Proof. reflexivity. Qed.

(** The store a successful flag construction leaves. *)
Lemma Flag_init_returns code check message_args st fl st' :
  Flag_init rt code check message_args st = (Returns fl, st') <->
  exists c d pre msg,
    checks st !! check = Some c /\ dicts st !! flag_desc c = Some d /\
    d !! code = Some pre /\
    str_format (format_ext rt) message_args pre = Returns msg /\
    fl = {| code := code; check := check; message_args := message_args; message := msg |} /\
    strict_type_checks rt fl = None /\
    st' = set_checks st [] (<[check := append_flag c fl]> (checks st)).
Proof.
  unfold Flag_init.
  destruct (checks st !! check) as [c|]; [|split; [discriminate | intros (?&?&?&?&?&_); discriminate]].
  destruct (dicts st !! flag_desc c) as [d|] eqn:Ed.
  2: { split; [discriminate|]. intros (c'&?&?&?&Ec&Ed'&_). injection Ec as <-. congruence. }
  destruct (d !! code) as [pre|] eqn:Ep.
  2: { split; [discriminate|]. intros (c'&d'&?&?&Ec&Ed'&Ep'&_).
       injection Ec as <-. rewrite Ed in Ed'. injection Ed' as <-. congruence. }
  destruct (str_format _ _ pre) as [msg|e] eqn:Ef.
  2: { split; [discriminate|]. intros (c'&d'&pre'&?&Ec&Ed'&Ep'&Ef'&_).
       injection Ec as <-. rewrite Ed in Ed'. injection Ed' as <-.
       rewrite Ep in Ep'. injection Ep' as <-. congruence. }
  cbv zeta.
  destruct (strict_type_checks rt _) as [e|] eqn:Es.
  - split; [discriminate|]. intros (c'&d'&pre'&msg'&Ec&Ed'&Ep'&Ef'&->&Es'&_).
    injection Ec as <-. rewrite Ed in Ed'. injection Ed' as <-.
    rewrite Ep in Ep'. injection Ep' as <-. rewrite Ef in Ef'. injection Ef' as <-.
    congruence.
  - split.
    + intros E. injection E as <- <-. exists c, d, pre, msg. auto 10.
    + intros (c'&d'&pre'&msg'&Ec&Ed'&Ep'&Ef'&->&Es'&->).
      injection Ec as <-. rewrite Ed in Ed'. injection Ed' as <-.
      rewrite Ep in Ep'. injection Ep' as <-. rewrite Ef in Ef'. injection Ef' as <-.
      reflexivity.
Qed.

(** A failed flag construction leaves the store as it was. *)
Lemma Flag_init_raises code check message_args st e st' :
  Flag_init rt code check message_args st = (Raises e, st') -> st' = st.
Proof.
  unfold Flag_init.
  repeat match goal with
         | |- context [match ?x with _ => _ end] => destruct x
         end; intros E; try discriminate; now injection E as _ <-.
Qed.
End StoreFacts.

(** ** The registry along a run *)

Section RegistryFacts.
Variable rt : Runtime.

Lemma registry_step_refl st : registry_step st st.
Proof. split; auto. Qed.

Lemma registry_step_trans st1 st2 st3 :
  registry_step st1 st2 -> registry_step st2 st3 -> registry_step st1 st3.
Proof. intros [A1 B1] [A2 B2]. split; auto. Qed.

Lemma registry_step_same st st' :
  allChecks st' = allChecks st -> checks st' = checks st -> registry_step st st'.
Proof.
  intros Ea Ec. unfold registry_step, registry_ok, registered_ids.
  rewrite Ea, Ec. auto.
Qed.

Lemma registry_step_append st self :
  id self ∉ registered_ids st ->
  registry_step st
    (set_checks st [fresh (dom (checks st))]
       (<[fresh (dom (checks st)) := self]> (checks st))).
Proof.
  intros Hnew. pose proof (fresh_check_unused st) as Hl.
  set (l := fresh (dom (checks st))) in *. split.
  - intros [Hwf Hnd]. split.
    + cbn [allChecks checks set_checks]. intros l' Hl'.
      apply elem_of_app in Hl' as [Hl'|Hl'].
      * destruct (decide (l = l')) as [<-|Hne].
        -- rewrite lookup_insert_eq. eauto.
        -- rewrite lookup_insert_ne by done. auto.
      * apply list_elem_of_singleton in Hl' as ->. rewrite lookup_insert_eq. eauto.
    + rewrite registered_ids_append by assumption.
      apply NoDup_app. split; [exact Hnd|]. split.
      * intros i Hi Hi'. apply list_elem_of_singleton in Hi' as ->. contradiction.
      * apply NoDup_singleton.
  - intros i Hi. apply registered_ids_elem in Hi as (l' & c & Hl' & Hc & <-).
    apply registered_ids_elem. exists l', c. cbn [allChecks checks set_checks].
    split; [apply elem_of_app; now left|]. split; [|reflexivity].
    rewrite lookup_insert_ne; [exact Hc|]. intros <-. congruence.
Qed.

Lemma registry_step_replace st l c c' :
  checks st !! l = Some c -> id c' = id c ->
  registry_step st (set_checks st [] (<[l := c']> (checks st))).
Proof.
  intros Hl Hid. unfold registry_step, registry_ok.
  rewrite (registered_ids_replace st l c c' Hl Hid).
  cbn [allChecks checks set_checks]. rewrite app_nil_r.
  split; [|auto]. intros [Hwf Hnd]. split; [|exact Hnd].
  intros l' Hl'. destruct (decide (l = l')) as [<-|Hne].
  - rewrite lookup_insert_eq. eauto.
  - rewrite lookup_insert_ne by done. auto.
Qed.

Lemma Check_register_step self st : registry_step st (snd (Check_register self st)).
Proof.
  destruct (Check_register self st) as [[l|e] st'] eqn:E; cbn [snd].
  - apply Check_register_returns in E as (_ & Hnew & _ & d & _ & ->).
    unfold registered. cbv zeta. eapply registry_step_trans.
    + apply registry_step_append. exact Hnew.
    + apply registry_step_same; reflexivity.
  - apply Check_register_raises in E as [->|(Hnew & _ & ->)].
    + apply registry_step_refl.
    + apply registry_step_append. exact Hnew.
Qed.

Lemma Check_init_step d i fd vf fl cfg st :
  registry_step st (snd (Check_init rt d i fd vf fl cfg st)).
Proof.
  unfold Check_init. destruct (str_format _ _ _).
  - apply Check_register_step.
  - apply registry_step_refl.
Qed.

Lemma Flag_init_step cd c ma st : registry_step st (snd (Flag_init rt cd c ma st)).
Proof.
  destruct (Flag_init rt cd c ma st) as [[fl|e] st'] eqn:E; cbn [snd].
  - apply Flag_init_returns in E as (cobj & d & pre & msg & Hc & _ & _ & _ & _ & _ & ->).
    now apply (registry_step_replace st c cobj).
  - apply Flag_init_raises in E as ->. apply registry_step_refl.
Qed.

Lemma copy_with_new_config_step self i cfg st :
  registry_step st (snd (copy_with_new_config rt self i cfg st)).
Proof.
  unfold copy_with_new_config. destruct (checks st !! self).
  - apply Check_init_step.
  - apply registry_step_refl.
Qed.

Hypothesis Hrt : respects_registry rt.

Lemma validate_step self args st : registry_step st (snd (validate rt self args st)).
Proof.
  unfold validate. destruct (checks st !! self) as [c|]; [|apply registry_step_refl].
  assert (Hcall : registry_step st (snd (call_validate_func rt self c args st))).
  { unfold call_validate_func. destruct (validate_func c); [apply Hrt | apply registry_step_refl]. }
  destruct (call_validate_func rt self c args st) as [[r|e] st1]; cbn [snd] in Hcall; [exact Hcall|].
  destruct (except_matches _ e); [|exact Hcall].
  match goal with |- context [Flag_init rt ?cd ?ck ?ma ?s] =>
    pose proof (Flag_init_step cd ck ma s) as Hfl;
    destruct (Flag_init rt cd ck ma s) as [[fl|e'] st3] end;
    cbn [snd] in Hfl |- *;
    (eapply registry_step_trans; [exact Hcall|]);
    (eapply registry_step_trans; [|exact Hfl]);
    now apply registry_step_same.
Qed.

Lemma run_op_step o st : registry_step st (run_op rt st o).
Proof.
  destruct o; cbn [run_op].
  - apply Check_init_step.
  - apply Flag_init_step.
  - apply validate_step.
  - apply copy_with_new_config_step.
Qed.

Lemma run_step ops : forall st, registry_step st (run rt ops st).
Proof.
  induction ops as [|o ops IH]; intros st; cbn [run fold_left].
  - apply registry_step_refl.
  - eapply registry_step_trans; [apply run_op_step | apply IH].
Qed.
End RegistryFacts.

Section CheckInitFacts.
Variable rt : Runtime.

(** A successful construction registers the id. *)
Lemma Check_init_registers d i fd vf fl cfg st l st' :
  Check_init rt d i fd vf fl cfg st = (Returns l, st') -> i ∈ registered_ids st'.
Proof.
  unfold Check_init. destruct (str_format _ _ _) as [formatted|]; [|discriminate].
  intros E. apply Check_register_returns in E as (_ & _ & -> & dd & _ & ->).
  apply registered_ids_elem. eexists _, _. unfold registered.
  cbn [allChecks checks set_checks set_dicts].
  split; [apply elem_of_app; right; apply list_elem_of_singleton; reflexivity|].
  split; [apply lookup_insert_eq | reflexivity].
Qed.

(** Under a registered id construction fails, and the store is left as
    it was. *)
Lemma Check_init_duplicate d i fd vf fl cfg st :
  i ∈ registered_ids st ->
  exists e, Check_init rt d i fd vf fl cfg st = (Raises e, st).
Proof.
  intros Hi. unfold Check_init. destruct (str_format _ _ _); [|eauto].
  unfold Check_register. cbn [id].
  destruct (negb _); [eauto|]. rewrite bool_decide_eq_true_2 by exact Hi. eauto.
Qed.
End CheckInitFacts.

(** Claim C6.  From a store whose registry is in order (the initial one is), and
    with validation functions that respect the registry: along every run
    of constructions, validations and copies no two registered checks
    share an id, and once a construction under an id has succeeded every
    later construction under that id fails, whatever its other arguments
    and whatever ran in between. *)
Theorem Check_id_unique (rt : Runtime) (st0 : State) :
  respects_registry rt -> registry_ok st0 ->
  (forall ops, NoDup (registered_ids (run rt ops st0))) /\
  (forall ops1 d1 i fd1 vf1 fl1 cfg1 l1 st1 ops2 d2 fd2 vf2 fl2 cfg2,
      Check_init rt d1 i fd1 vf1 fl1 cfg1 (run rt ops1 st0) = (Returns l1, st1) ->
      exists e,
        Check_init rt d2 i fd2 vf2 fl2 cfg2 (run rt ops2 st1) = (Raises e, run rt ops2 st1)).
Proof.
  intros Hrt H0. split.
  - intros ops. now apply (run_step rt Hrt ops st0).
  - intros ops1 d1 i fd1 vf1 fl1 cfg1 l1 st1 ops2 d2 fd2 vf2 fl2 cfg2 E.
    apply Check_init_duplicate, (run_step rt Hrt ops2 st1).
    eapply Check_init_registers; eauto.
Qed.

Lemma demo_rt_respects_registry : respects_registry demo_rt.
Proof.
  intros f self args st. cbn [demo_rt validate_funcs].
  destruct (String.eqb f "green").
  - pose proof (Flag_init_step base_rt GREEN self ∅ st) as Hfl.
    destruct (Flag_init base_rt GREEN self ∅ st) as [[fl|e] st']; exact Hfl.
  - destruct (String.eqb f "key_error"); [apply registry_step_refl|].
    destruct (String.eqb f "interrupt"); apply registry_step_refl.
Qed.

Lemma initial_state_registry_ok ds : registry_ok (initial_state ds).
Proof.
  split.
  - intros l Hl. cbn in Hl. now apply elem_of_nil in Hl.
  - apply NoDup_nil_2.
Qed.

Lemma Check_id_unique_witness :
  respects_registry demo_rt /\ registry_ok (initial_state demo_dicts) /\
  (forall ops, NoDup (registered_ids (run demo_rt ops (initial_state demo_dicts)))) /\
  (forall ops1 d1 i fd1 vf1 fl1 cfg1 l1 st1 ops2 d2 fd2 vf2 fl2 cfg2,
      Check_init demo_rt d1 i fd1 vf1 fl1 cfg1 (run demo_rt ops1 (initial_state demo_dicts))
        = (Returns l1, st1) ->
      exists e,
        Check_init demo_rt d2 i fd2 vf2 fl2 cfg2 (run demo_rt ops2 st1)
          = (Raises e, run demo_rt ops2 st1)).
Proof.
  split; [exact demo_rt_respects_registry|].
  split; [exact (initial_state_registry_ok demo_dicts)|].
  apply (Check_id_unique demo_rt (initial_state demo_dicts)).
  - exact demo_rt_respects_registry.
  - exact (initial_state_registry_ok demo_dicts).
Defined.

(** ** Flags *)


Lemma demo_state_check f : checks (demo_state f) !! 0%nat = Some (demo_check f).
Proof.
  unfold demo_state, Check_init.
  replace (str_format (format_ext demo_rt) demo_config "Check {x}")
    with (Returns (A:=string) "Check present") by (vm_compute; reflexivity).
  reflexivity.
Qed.

Lemma demo_state_dict f : dicts (demo_state f) !! 0%nat = Some demo_flag_desc.
Proof.
  unfold demo_state, Check_init.
  replace (str_format (format_ext demo_rt) demo_config "Check {x}")
    with (Returns (A:=string) "Check present") by (vm_compute; reflexivity).
  vm_compute. reflexivity.
Qed.


(** ** Copies *)

Section CopyFacts.
Variable rt : Runtime.

Lemma Check_init_returns desc i fd vf fl cfg st l st' :
  Check_init rt desc i fd vf fl cfg st = (Returns l, st') <->
  exists formatted d,
    str_format (format_ext rt) cfg desc = Returns formatted /\
    re_match_check_id i = true /\ (i ∉ registered_ids st) /\
    l = fresh (dom (checks st)) /\ dicts st !! fd = Some d /\
    st' = registered
            {| description := formatted; id := i; flag_desc := fd; validate_func := vf;
               flags := fl; config := cfg; _proto_description := desc |} d st.
Proof.
  unfold Check_init. destruct (str_format _ _ _) as [formatted|e].
  - rewrite Check_register_returns. cbn [id flag_desc]. split.
    + intros (Hm & Hn & -> & d & Hd & ->). exists formatted, d. auto 10.
    + intros (formatted' & d & E & Hm & Hn & -> & Hd & ->).
      injection E as <-. eauto 10.
  - split; [discriminate | intros (? & ? & ? & _); discriminate].
Qed.

Lemma copy_with_new_config_returns self i cfg st c l st' :
  checks st !! self = Some c ->
  copy_with_new_config rt self i cfg st = (Returns l, st') ->
  l <> self /\ checks st !! l = None /\ checks st' !! self = Some c /\
  exists c',
    checks st' !! l = Some c' /\ flags c' = [] /\
    _proto_description c' = _proto_description c /\
    flag_desc c' = flag_desc c /\ validate_func c' = validate_func c /\
    id c' = i /\ config c' = cfg /\
    str_format (format_ext rt) cfg (_proto_description c) = Returns (description c').
Proof.
  intros Hc. unfold copy_with_new_config. rewrite Hc. intros E.
  apply Check_init_returns in E as (formatted & d & Hf & Hm & Hn & -> & Hd & ->).
  pose proof (fresh_check_unused st) as Hfresh.
  set (l := fresh (dom (checks st))) in *.
  assert (Hne : l <> self) by congruence.
  split; [exact Hne|]. split; [exact Hfresh|].
  unfold registered. cbv zeta. fold l.
  cbn [checks set_dicts set_checks]. split.
  - rewrite lookup_insert_ne by exact Hne. exact Hc.
  - eexists. split; [apply lookup_insert_eq|]. cbn. auto 10.
Qed.

(** Claim C8.  For a check [c] at [self]: [copy_with_new_config] returns
    exactly when the description template formats against the new
    config, the new id has the required format and is not registered,
    and [flag_desc] is a dict; what it returns is a new check, at an
    address unused before, with no flags, with the template, the
    [flag_desc] dict and the validation function of [c], and with the
    id and the config supplied; [c] itself is left as it was, whatever
    flags it holds. *)
Theorem copy_with_new_config_fresh self i cfg st c :
  checks st !! self = Some c ->
  ((exists l st', copy_with_new_config rt self i cfg st = (Returns l, st')) <->
   (exists formatted,
       str_format (format_ext rt) cfg (_proto_description c) = Returns formatted) /\
   re_match_check_id i = true /\ (i ∉ registered_ids st) /\
   is_Some (dicts st !! flag_desc c)) /\
  (forall l st', copy_with_new_config rt self i cfg st = (Returns l, st') ->
     l <> self /\ checks st !! l = None /\ checks st' !! self = Some c /\
     exists c',
       checks st' !! l = Some c' /\ flags c' = [] /\
       _proto_description c' = _proto_description c /\
       flag_desc c' = flag_desc c /\ validate_func c' = validate_func c /\
       id c' = i /\ config c' = cfg /\
       str_format (format_ext rt) cfg (_proto_description c) = Returns (description c')).
Proof.
  intros Hc. split.
  - unfold copy_with_new_config. rewrite Hc. split.
    + intros (l & st' & E).
      apply Check_init_returns in E as (formatted & d & Hf & Hm & Hn & _ & Hd & _).
      eauto 10.
    + intros ((formatted & Hf) & Hm & Hn & (d & Hd)).
      eexists _, _. apply Check_init_returns. exists formatted, d. auto 10.
  - intros l st'. now apply copy_with_new_config_returns.
Qed.
End CopyFacts.

Lemma copy_with_new_config_fresh_witness :
  let st := demo_state "green" in
  let c := demo_check "green" in
  checks st !! 0%nat = Some c /\
  ((exists l st', copy_with_new_config demo_rt 0%nat "SAMPLE_METADATA_0002" demo_config st
                  = (Returns l, st')) <->
   (exists formatted,
       str_format (format_ext demo_rt) demo_config (_proto_description c) = Returns formatted) /\
   re_match_check_id "SAMPLE_METADATA_0002" = true /\
   ("SAMPLE_METADATA_0002" ∉ registered_ids st) /\
   is_Some (dicts st !! flag_desc c)) /\
  (forall l st', copy_with_new_config demo_rt 0%nat "SAMPLE_METADATA_0002" demo_config st
                 = (Returns l, st') ->
     l <> 0%nat /\ checks st !! l = None /\ checks st' !! 0%nat = Some c /\
     exists c',
       checks st' !! l = Some c' /\ flags c' = [] /\
       _proto_description c' = _proto_description c /\
       flag_desc c' = flag_desc c /\ validate_func c' = validate_func c /\
       id c' = "SAMPLE_METADATA_0002" /\ config c' = demo_config /\
       str_format (format_ext demo_rt) demo_config (_proto_description c)
         = Returns (description c')).
Proof.
  cbv zeta. split; [apply demo_state_check|].
  apply (copy_with_new_config_fresh demo_rt 0%nat "SAMPLE_METADATA_0002" demo_config
           (demo_state "green") (demo_check "green")).
  apply demo_state_check.
Defined.

(** ** The shared [flag_desc] dict *)

Section FlagDescFacts.
Variable rt : Runtime.


End FlagDescFacts.

Lemma demo_state_constructed f :
  Check_init demo_rt "Check {x}" "DATASET_METADATA_0001" 0 (Some f) [] demo_config
    (initial_state demo_dicts) = (Returns 0%nat, demo_state f).
Proof.
  unfold demo_state, Check_init.
  replace (str_format (format_ext demo_rt) demo_config "Check {x}")
    with (Returns (A:=string) "Check present") by (vm_compute; reflexivity).
  reflexivity.
Qed.


(** ** The description *)



(** ** [validate] *)

Section ValidateFacts.
Variable rt : Runtime.

Lemma format_dev_unhandled (kw : gmap string pyval) (f v : pyval) :
  kw !! "function" = Some f -> kw !! "e" = Some v ->
  str_format (format_ext rt) kw DEV_UNHANDLED_TEMPLATE
  = Returns ("An unhandled exception occured in " +:+ py_str f +:+ ": " +:+ py_str v).
Proof.
  intros Hf Hv.
  change DEV_UNHANDLED_TEMPLATE
    with ("An unhandled exception occured in "
          +:+ String "{" ("function" +:+ String "}" (": " +:+ String "{" ("e" +:+ String "}" EmptyString)))).
  rewrite (format_two_fields (format_ext rt) kw "An unhandled exception occured in "
             "function" ": " "e" EmptyString f v); try reflexivity; try assumption.
  now rewrite ReFacts.append_empty_r.
Qed.

(** Claim C1 (amended).  When the validation function raises an exception
    that is an instance of a class in [ALLOWED_DEV_EXCEPTIONS] (by
    default [Exception]), and the check's [flag_desc] still holds the
    DEV_UNHANDLED template, and the strict type check accepts flags:
    [validate] does not raise; it logs, and returns a flag with code
    DEV_UNHANDLED whose message arguments are the validation function and
    the exception, and that flag is appended to the flags of the check. *)
Theorem validate_turns_allowed_exception_into_flag self args st c e st1 c1 d :
  checks st !! self = Some c ->
  call_validate_func rt self c args st = (Raises e, st1) ->
  except_matches (ALLOWED_DEV_EXCEPTIONS st1) e = true ->
  checks st1 !! self = Some c1 ->
  dicts st1 !! flag_desc c1 = Some d ->
  d !! DEV_UNHANDLED = Some DEV_UNHANDLED_TEMPLATE ->
  (forall fl, strict_type_checks rt fl = None) ->
  exists fl st2,
    validate rt self args st = (Returns (RFlag fl), st2) /\
    code fl = DEV_UNHANDLED /\ check fl = self /\
    message_args fl = {[ "function" := func_value (validate_func c1); "e" := VExc e ]} /\
    message fl = "An unhandled exception occured in "
                   +:+ py_str (func_value (validate_func c1)) +:+ ": " +:+ exc_str e /\
    (exists c2, checks st2 !! self = Some c2 /\ flags c2 = flags c1 ++ [fl]) /\
    log st2 = log st1
                ++ [("Developer exception raised during a validation function for check: ", self)].
Proof.
  intros Hc Hcall Hexc Hc1 Hd Hk Hty.
  unfold validate. rewrite Hc, Hcall, Hexc. cbv zeta.
  cbn [checks log_critical]. rewrite Hc1. cbn [from_option].
  set (ma := ({[ "function" := func_value (validate_func c1); "e" := VExc e ]}
                : gmap string pyval)).
  set (st2 := log_critical st1 _ self).
  set (fl := {| code := DEV_UNHANDLED; check := self; message_args := ma;
                message := "An unhandled exception occured in "
                             +:+ py_str (func_value (validate_func c1)) +:+ ": " +:+ exc_str e |}).
  assert (E : Flag_init rt DEV_UNHANDLED self ma st2
              = (Returns fl, set_checks st2 [] (<[self := append_flag c1 fl]> (checks st2)))).
  { apply Flag_init_returns. exists c1, d, DEV_UNHANDLED_TEMPLATE, (message fl).
    repeat split; auto.
    apply (format_dev_unhandled ma (func_value (validate_func c1)) (VExc e)).
    - apply lookup_insert_eq.
    - unfold ma. rewrite lookup_insert_ne by discriminate. apply lookup_singleton_eq. }
  rewrite E. eexists fl, _. split; [reflexivity|].
  cbn [code check message_args message checks log set_checks].
  repeat split.
  eexists. split; [apply lookup_insert_eq | reflexivity].
Qed.

(** Claim C2 (amended).  When the validation function raises an exception
    that is no instance of any class in [ALLOWED_DEV_EXCEPTIONS],
    [validate] raises that exception, in the store the function left. *)
Theorem validate_propagates_other_exception self args st c e st1 :
  checks st !! self = Some c ->
  call_validate_func rt self c args st = (Raises e, st1) ->
  except_matches (ALLOWED_DEV_EXCEPTIONS st1) e = false ->
  validate rt self args st = (Raises e, st1).
Proof.
  intros Hc Hcall Hexc. unfold validate. now rewrite Hc, Hcall, Hexc.
Qed.
End ValidateFacts.

Lemma validate_turns_allowed_exception_into_flag_witness :
  let st := demo_state "key_error" in
  let c := demo_check "key_error" in
  let e := KeyError "'field'" in
  except_matches (ALLOWED_DEV_EXCEPTIONS st) e = true /\
  exists fl st2,
    validate demo_rt 0%nat [] st = (Returns (RFlag fl), st2) /\
    code fl = DEV_UNHANDLED /\ check fl = 0%nat /\
    message_args fl = {[ "function" := func_value (validate_func c); "e" := VExc e ]} /\
    message fl = "An unhandled exception occured in "
                   +:+ py_str (func_value (validate_func c)) +:+ ": " +:+ exc_str e /\
    (exists c2, checks st2 !! 0%nat = Some c2 /\ flags c2 = flags c ++ [fl]) /\
    log st2 = log st
                ++ [("Developer exception raised during a validation function for check: ", 0%nat)].
Proof.
  cbv zeta. split; [vm_compute; reflexivity|].
  apply (validate_turns_allowed_exception_into_flag demo_rt 0%nat [] (demo_state "key_error")
           (demo_check "key_error") (KeyError "'field'") (demo_state "key_error")
           (demo_check "key_error") demo_flag_desc).
  - apply demo_state_check.
  - reflexivity.
  - vm_compute. reflexivity.
  - apply demo_state_check.
  - apply demo_state_dict.
  - vm_compute. reflexivity.
  - intros fl. reflexivity.
Defined.

(** Claim C1 as first stated fails: with the catch-all at its default, [Exception],
    a [KeyboardInterrupt] is not in the set, and [validate] raises it. *)
Lemma validate_uncaught_counterexample :
  let st := demo_state "interrupt" in
  let e := KeyboardInterrupt EmptyString in
  checks st !! 0%nat = Some (demo_check "interrupt") /\
  call_validate_func demo_rt 0%nat (demo_check "interrupt") [] st = (Raises e, st) /\
  except_matches (ALLOWED_DEV_EXCEPTIONS st) e = false /\
  validate demo_rt 0%nat [] st = (Raises e, st).
Proof.
  cbv zeta. split; [apply demo_state_check|]. split; [reflexivity|].
  split; [vm_compute; reflexivity|].
  unfold validate. rewrite demo_state_check.
  replace (call_validate_func demo_rt 0%nat (demo_check "interrupt") [] (demo_state "interrupt"))
    with (Raises (A:=retval) (KeyboardInterrupt EmptyString), demo_state "interrupt")
    by reflexivity.
  replace (except_matches (ALLOWED_DEV_EXCEPTIONS (demo_state "interrupt"))
             (KeyboardInterrupt EmptyString)) with false by (vm_compute; reflexivity).
  reflexivity.
Qed.

Lemma validate_propagates_other_exception_witness :
  let st := demo_state "interrupt" in
  let e := KeyboardInterrupt EmptyString in
  except_matches (ALLOWED_DEV_EXCEPTIONS st) e = false /\
  validate demo_rt 0%nat [] st = (Raises e, st).
Proof.
  cbv zeta. split; [vm_compute; reflexivity|].
  apply (validate_propagates_other_exception demo_rt 0%nat [] (demo_state "interrupt")
           (demo_check "interrupt")).
  - apply demo_state_check.
  - reflexivity.
  - vm_compute. reflexivity.
Defined.

(** Claim C2 as first stated fails: a [KeyError] is an instance of [Exception], the
    one class in the set, and [validate] does not raise it but returns a
    DEV_UNHANDLED flag. *)
Lemma validate_caught_counterexample :
  let st := demo_state "key_error" in
  let e := KeyError "'field'" in
  call_validate_func demo_rt 0%nat (demo_check "key_error") [] st = (Raises e, st) /\
  except_matches (ALLOWED_DEV_EXCEPTIONS st) e = true /\
  fst (validate demo_rt 0%nat [] st)
    = Returns (RFlag {| code := DEV_UNHANDLED; check := 0%nat;
                        message_args := {[ "function" := VFunc "key_error"; "e" := VExc e ]};
                        message := "An unhandled exception occured in <function key_error>: 'field'" |}).
Proof.
  cbv zeta. split; [reflexivity|]. split; vm_compute; reflexivity.
Qed.

(** ** [validate_all] *)

Section VVProtocolFacts.
Context {DS SM CP : Type} `{Countable DS, Countable SM, Countable CP} {W : Type}.
Implicit Types (self : VVProtocol DS SM CP) (m : VVMethods DS SM CP W).

(** A key of the other mapping takes the other mapping's value; every
    other key keeps its own. *)
Lemma dict_update_lookup {K V} `{Countable K} (d other : gmap K V) k :
  dict_update d other !! k = match other !! k with
                             | Some v => Some v
                             | None => d !! k
                             end.
Proof.
  unfold dict_update. destruct (other !! k) as [v|] eqn:E.
  - now apply lookup_union_Some_l.
  - now apply lookup_union_r.
Qed.

Lemma dict_update_empty {K V} `{Countable K} (other : gmap K V) :
  dict_update ∅ other = other.
Proof. unfold dict_update. apply (right_id_L ∅ (∪)). Qed.

(** As soon as one of the three methods raises, the later ones are not
    run and the exception leaves [validate_all]. *)
Lemma validate_all_dataset_raises m self w e w1 :
  validate_dataset m self w = (Raises e, w1) ->
  validate_all m self w = (Raises e, (self, w1)).
Proof. intros E. unfold validate_all. now rewrite E. Qed.

(** Claim C3 (amended).  [validate_all] runs [validate_dataset], then
    [validate_samples], then [validate_components], each in the state
    its predecessor left and seeing the mappings updated so far; when
    they return [d], [s] and [c], each internal mapping is updated with
    the mapping returned for it: a key of the returned mapping now holds
    the returned list, whatever it held before, and every other key
    holds what it held; on a protocol whose mappings are empty the
    [flags] property is then exactly [d], [s] and [c]. *)
Theorem validate_all_updates m self w d w1 s w2 c w3 :
  validate_dataset m self w = (Returns d, w1) ->
  validate_samples m (update_dataset self d) w1 = (Returns s, w2) ->
  validate_components m (update_sample (update_dataset self d) s) w2 = (Returns c, w3) ->
  exists self',
    validate_all m self w = (Returns tt, (self', w3)) /\
    dataset self' = dataset self /\
    (forall k, flags_dataset (VVProtocol_flags self') !! k
               = match d !! k with
                 | Some fl => Some fl
                 | None => flags_dataset (VVProtocol_flags self) !! k
                 end) /\
    (forall k, flags_sample (VVProtocol_flags self') !! k
               = match s !! k with
                 | Some fl => Some fl
                 | None => flags_sample (VVProtocol_flags self) !! k
                 end) /\
    (forall k, flags_component (VVProtocol_flags self') !! k
               = match c !! k with
                 | Some fl => Some fl
                 | None => flags_component (VVProtocol_flags self) !! k
                 end) /\
    (VVProtocol_flags self
       = {| flags_dataset := ∅; flags_sample := ∅; flags_component := ∅ |} ->
     VVProtocol_flags self'
       = {| flags_dataset := d; flags_sample := s; flags_component := c |}).
Proof.
  intros Ed Es Ec. unfold validate_all. rewrite Ed. cbv zeta. rewrite Es, Ec.
  eexists. split; [reflexivity|]. split; [reflexivity|].
  unfold VVProtocol_flags.
  cbn [_flags update_dataset update_sample update_component
       flags_dataset flags_sample flags_component].
  split; [intros k; apply dict_update_lookup|].
  split; [intros k; apply dict_update_lookup|].
  split; [intros k; apply dict_update_lookup|].
  intros ->. cbn [flags_dataset flags_sample flags_component].
  now rewrite !dict_update_empty.
Qed.
End VVProtocolFacts.

Lemma validate_all_updates_witness :
  exists self',
    validate_all demo_methods demo_protocol 0%nat = (Returns tt, (self', 1%nat)) /\
    dataset self' = dataset demo_protocol /\
    (forall k, flags_dataset (VVProtocol_flags self') !! k
               = match ({[ 0%nat := [demo_green_flag] ]} : gmap nat (list Flag)) !! k with
                 | Some fl => Some fl
                 | None => flags_dataset (VVProtocol_flags demo_protocol) !! k
                 end) /\
    (forall k, flags_sample (VVProtocol_flags self') !! k
               = match (∅ : gmap nat (list Flag)) !! k with
                 | Some fl => Some fl
                 | None => flags_sample (VVProtocol_flags demo_protocol) !! k
                 end) /\
    (forall k, flags_component (VVProtocol_flags self') !! k
               = match (∅ : gmap nat (list Flag)) !! k with
                 | Some fl => Some fl
                 | None => flags_component (VVProtocol_flags demo_protocol) !! k
                 end) /\
    (VVProtocol_flags demo_protocol
       = {| flags_dataset := ∅; flags_sample := ∅; flags_component := ∅ |} ->
     VVProtocol_flags self'
       = {| flags_dataset := {[ 0%nat := [demo_green_flag] ]};
            flags_sample := ∅; flags_component := ∅ |}).
Proof.
  apply (validate_all_updates demo_methods demo_protocol 0%nat
           {[ 0%nat := [demo_green_flag] ]} 1%nat ∅ 1%nat ∅ 1%nat); reflexivity.
Defined.

(** Claim C3 as first stated fails: the second call of [validate_all] replaces the
    list the first call stored for entity 0, and the GREEN flag the first
    call recorded is gone. *)
Lemma validate_all_drops_counterexample :
  let first := snd (validate_all demo_methods demo_protocol 0%nat) in
  let second := snd (validate_all demo_methods (fst first) (snd first)) in
  flags_dataset (VVProtocol_flags (fst first)) !! 0%nat = Some [demo_green_flag] /\
  flags_dataset (VVProtocol_flags (fst second)) !! 0%nat = Some [demo_red_flag] /\
  demo_green_flag ∉ [demo_red_flag].
Proof.
  cbv zeta. split; [reflexivity|]. split; [reflexivity|].
  intros Hin. apply list_elem_of_singleton in Hin. discriminate Hin.
Qed.

(** ** [FlagCode] *)

Section EnumFacts.
Import PyEnum.

Lemma create_snoc body nv : create (body ++ [nv]) = add_member (create body) nv.
Proof. unfold create. now rewrite fold_left_app. Qed.

Lemma canonical_for_Some v mm m :
  canonical_for v mm = Some m -> value m = v /\ exists n, (n, m) ∈ mm.
Proof.
  unfold canonical_for. destruct (List.find _ mm) as [[n m']|] eqn:E; [|discriminate].
  intros [= <-]. apply find_some in E as [Hin Hv]. cbn in Hv.
  split; [now apply Z.eqb_eq|]. exists n. now apply list_elem_of_In.
Qed.

Lemma canonical_for_None v mm n m :
  canonical_for v mm = None -> (n, m) ∈ mm -> value m <> v.
Proof.
  unfold canonical_for. destruct (List.find _ mm) eqn:E; [discriminate|].
  intros _ Hin. apply list_elem_of_In in Hin.
  pose proof (find_none _ _ E _ Hin) as Hv. cbn in Hv. now apply Z.eqb_neq.
Qed.

(** What class creation maintains: the member map lists the names of
    the body in order, each with a member of the value given for it, and
    entries of equal value hold one and the same member. *)
Lemma create_invariant body :
  fst <$> _member_map_ (create body) = fst <$> body /\
  (forall n m, (n, m) ∈ _member_map_ (create body) -> (n, value m) ∈ body) /\
  (forall n1 m1 n2 m2,
      (n1, m1) ∈ _member_map_ (create body) -> (n2, m2) ∈ _member_map_ (create body) ->
      value m1 = value m2 -> m1 = m2).
Proof.
  induction body as [|[n v] body (IHa & IHb & IHc)] using rev_ind.
  - split; [reflexivity|]. split; intros *; cbn; intros Hin; now apply elem_of_nil in Hin.
  - rewrite create_snoc. unfold add_member. cbn [fst snd].
    destruct (canonical_for v (_member_map_ (create body))) as [mc|] eqn:Ec;
      cbn [_member_map_].
    + apply canonical_for_Some in Ec as [Hv [nc Hc]].
      split; [now rewrite !fmap_app, IHa|]. split.
      * intros n' m' Hin. apply elem_of_app in Hin as [Hin|Hin]; apply elem_of_app.
        -- left. auto.
        -- right. apply list_elem_of_singleton in Hin as [= -> ->].
           rewrite Hv. now apply list_elem_of_singleton.
      * intros n1 m1 n2 m2 H1 H2 E.
        apply elem_of_app in H1 as [H1|H1]; apply elem_of_app in H2 as [H2|H2].
        -- eauto.
        -- apply list_elem_of_singleton in H2 as [= -> ->]. eauto.
        -- apply list_elem_of_singleton in H1 as [= -> ->]. symmetry. eauto.
        -- apply list_elem_of_singleton in H1 as [= -> ->].
           apply list_elem_of_singleton in H2 as [= -> ->]. reflexivity.
    + split; [now rewrite !fmap_app, IHa|]. split.
      * intros n' m' Hin. apply elem_of_app in Hin as [Hin|Hin]; apply elem_of_app.
        -- left. auto.
        -- right. apply list_elem_of_singleton in Hin as [= -> ->].
           now apply list_elem_of_singleton.
      * intros n1 m1 n2 m2 H1 H2 E.
        apply elem_of_app in H1 as [H1|H1]; apply elem_of_app in H2 as [H2|H2].
        -- eauto.
        -- apply list_elem_of_singleton in H2 as [= -> ->]. cbn in E.
           now destruct (canonical_for_None _ _ _ _ Ec H1).
        -- apply list_elem_of_singleton in H1 as [= -> ->]. cbn in E.
           now destruct (canonical_for_None _ _ _ _ Ec H2).
        -- apply list_elem_of_singleton in H1 as [= -> ->].
           apply list_elem_of_singleton in H2 as [= -> ->]. reflexivity.
Qed.

Lemma getattr_defined body n v :
  (n, v) ∈ body -> exists m, getattr (create body) n = Some m /\ (n, m) ∈ _member_map_ (create body).
Proof.
  intros Hin. destruct (create_invariant body) as (Ha & _ & _).
  assert (Hn : n ∈ fst <$> _member_map_ (create body)).
  { rewrite Ha. apply list_elem_of_fmap. now exists (n, v). }
  apply list_elem_of_fmap in Hn as ([n' m] & Hn' & Hm). cbn in Hn'. subst n'.
  unfold getattr.
  destruct (List.find _ (_member_map_ (create body))) as [[n' m']|] eqn:E.
  - apply find_some in E as [Hin' Hname]. cbn in Hname.
    apply String.eqb_eq in Hname as ->. exists m'. split; [reflexivity|].
    now apply list_elem_of_In.
  - apply list_elem_of_In in Hm. pose proof (find_none _ _ E _ Hm) as Hf.
    cbn in Hf. now rewrite String.eqb_refl in Hf.
Qed.

Lemma NoDup_fst_functional {A B} (l : list (A * B)) x y1 y2 :
  NoDup (fst <$> l) -> (x, y1) ∈ l -> (x, y2) ∈ l -> y1 = y2.
Proof.
  induction l as [|[a b] l IH]; intros Hnd H1 H2.
  - now apply elem_of_nil in H1.
  - rewrite fmap_cons in Hnd. apply NoDup_cons in Hnd as [Hnotin Hnd].
    assert (Hfresh : forall y, (a, y) ∈ l -> False).
    { intros y Hy. apply Hnotin, list_elem_of_fmap. now exists (a, y). }
    apply elem_of_cons in H1 as [[= -> ->]|H1]; apply elem_of_cons in H2 as [[= ->]|H2].
    + reflexivity.
    + now destruct (Hfresh y2).
    + subst. now destruct (Hfresh y1).
    + auto.
Qed.

(** In any enumeration whose names are distinct, two names given the
    same value denote one member. *)
Lemma equal_values_alias body n1 n2 v :
  NoDup (fst <$> body) -> (n1, v) ∈ body -> (n2, v) ∈ body ->
  getattr (create body) n1 = getattr (create body) n2.
Proof.
  intros Hnd H1 H2.
  destruct (getattr_defined body n1 v H1) as (m1 & -> & Hm1).
  destruct (getattr_defined body n2 v H2) as (m2 & -> & Hm2).
  destruct (create_invariant body) as (_ & Hb & Hc).
  assert (Hval : forall n m, (n, m) ∈ _member_map_ (create body) -> (n, v) ∈ body -> value m = v).
  { intros n m Hm Hv. apply Hb in Hm.
    apply (NoDup_fst_functional body n (value m) v Hnd Hm Hv). }
  f_equal. apply (Hc n1 m1 n2 m2 Hm1 Hm2).
  rewrite (Hval n1 m1), (Hval n2 m2); auto.
Qed.
End EnumFacts.

(** Claim C4 against the code: [enum.Enum] turns every name whose value
    an earlier member has into an alias of that member.  The five HALT
    names denote the one member HALT1, the five RED names RED1 and the
    five YELLOW names YELLOW1; the class has seven members. *)
Theorem FlagCode_equal_ranks_alias :
  FlagCode_class = PyEnum.create FlagCode_body /\
  Forall (fun n => FlagCode_attr n = Some (PyEnum.Mk "HALT1" 80))
    ["HALT1"; "HALT2"; "HALT3"; "HALT4"; "HALT5"] /\
  Forall (fun n => FlagCode_attr n = Some (PyEnum.Mk "RED1" 50))
    ["RED1"; "RED2"; "RED3"; "RED4"; "RED5"] /\
  Forall (fun n => FlagCode_attr n = Some (PyEnum.Mk "YELLOW1" 30))
    ["YELLOW1"; "YELLOW2"; "YELLOW3"; "YELLOW4"; "YELLOW5"] /\
  PyEnum.members FlagCode_class
    = [PyEnum.Mk "DEV_HANDLED" 90; PyEnum.Mk "DEV_UNHANDLED" 91; PyEnum.Mk "HALT1" 80;
       PyEnum.Mk "RED1" 50; PyEnum.Mk "YELLOW1" 30; PyEnum.Mk "GREEN" 20;
       PyEnum.Mk "INFO" 10] /\
  (forall a b : string,
      ({[ PyEnum.Mk "HALT1" 80 := a ]} : gmap FlagCode string) !! PyEnum.Mk "HALT1" 80 = Some a /\
      match FlagCode_attr "HALT1", FlagCode_attr "HALT2" with
      | Some h1, Some h2 =>
          (<[h2 := b]> ({[ h1 := a ]} : gmap FlagCode string)) !! h1 = Some b
      | _, _ => False
      end).
Proof.
  split; [reflexivity|].
  split; [repeat constructor|]. split; [repeat constructor|]. split; [repeat constructor|].
  split; [reflexivity|].
  intros a b. split; [apply lookup_singleton_eq|].
  change (FlagCode_attr "HALT1") with (Some (PyEnum.Mk "HALT1" 80)).
  change (FlagCode_attr "HALT2") with (Some (PyEnum.Mk "HALT1" 80)).
  apply lookup_insert_eq.
Qed.

(** ** The end-to-end scenarios *)

(** A check whose function returns a GREEN flag: the flag comes back with
    the message of its code. *)
Example scenario_green :
  fst (validate demo_rt 0%nat [] (demo_state "green"))
  = Returns (RFlag {| code := GREEN; check := 0%nat; message_args := ∅; message := "ok" |}).
Proof. vm_compute. reflexivity. Qed.

(** An id with a wrong scope word and a single digit is refused. *)
Example scenario_bad_id :
  Check_init demo_rt "Check {x}" "BADSCOPE_X_1" 0 (Some "green") [] demo_config
    (initial_state demo_dicts)
  = (Raises (AssertionError CHECK_ID_MESSAGE), initial_state demo_dicts).
Proof. vm_compute. reflexivity. Qed.

(** The second construction under one id is refused. *)
Example scenario_duplicate_id :
  fst (Check_init demo_rt "other text" "DATASET_METADATA_0001" 0 None [] ∅ (demo_state "green"))
  = Raises (AssertionError "CheckID already used, try another ID").
Proof. vm_compute. reflexivity. Qed.

(** A closing brace between [[] and []] of a field name does not end the
    field: the only key of the template is [a], and the field is replaced
    by the item's text. *)
Example scenario_index_field :
  format_keys "{a[x}{n}y]}" = ["a"] /\
  str_format demo_ops {[ "a" := VObj "{'x}{n}y': 'v'}" ]} "{a[x}{n}y]}" = Returns "v" /\
  str_format demo_ops ∅ "{a[x}{n}y]}" = Raises (KeyError "'a'").
Proof. vm_compute. auto. Qed.

(** The fields of a format spec are filled in from the same arguments, one
    level deep. *)
Example scenario_nested_field :
  format_keys "{a:{n}}" = ["a"; "n"] /\
  str_format demo_ops {[ "a" := VStr "v" ]} "{a:{n}}" = Raises (KeyError "'n'") /\
  str_format demo_ops {[ "a" := VStr "v"; "n" := VStr "5" ]} "{a:{n}}" = Returns "v    " /\
  str_format demo_ops {[ "a" := VStr "v"; "n" := VStr "5"; "m" := VStr "3" ]} "{a:{n:{m}}}"
    = Raises (ValueError "Max string recursion exceeded").
Proof. vm_compute. auto 6. Qed.

(** Malformed templates, and fields without a name. *)
Example scenario_malformed_template :
  str_format demo_ops {[ "a" := VStr "v" ]} "{a!"
    = Raises (ValueError "end of string while looking for conversion specifier") /\
  str_format demo_ops {[ "a" := VStr "v" ]} "{a!r"
    = Raises (ValueError "unmatched '{' in format spec") /\
  str_format demo_ops {[ "a" := VStr "v" ]} "{a!rx}"
    = Raises (ValueError "expected ':' after conversion specifier") /\
  str_format demo_ops {[ "a" := VStr "v" ]} "{a["
    = Raises (ValueError "expected '}' before end of string") /\
  str_format demo_ops {[ "a" := VStr "v" ]} "{a{"
    = Raises (ValueError "unexpected '{' in field name") /\
  str_format demo_ops {[ "a" := VStr "v" ]} "{a}}"
    = Raises (ValueError "Single '}' encountered in format string") /\
  str_format demo_ops ∅ "{a} }" = Raises (KeyError "'a'") /\
  str_format demo_ops {[ "a" := VStr "v" ]} "{}"
    = Raises (IndexError "Replacement index 0 out of range for positional args tuple") /\
  str_format demo_ops {[ "a" := VStr "v" ]} "{00012}"
    = Raises (IndexError "Replacement index 12 out of range for positional args tuple") /\
  str_format demo_ops {[ "a" := VStr "v" ]} "{9223372036854775808}"
    = Raises (ValueError "Too many decimal digits in format string").
Proof. vm_compute. repeat split. Qed.

(** * Further properties *)

(** ** More on the construction of checks *)

Section CheckConstruction.
Variable rt : Runtime.

(** Extra X1.  Once the description has been formatted, construction gets
    past the id assertion exactly for the ids made of a scope word
    COMPONENT, SAMPLE or DATASET, an underscore, a run of non-digits, an
    underscore and four digits, alone or followed by one newline. *)
Theorem Check_id_assertion_accepts desc i fd vf fl cfg st formatted :
  str_format (format_ext rt) cfg desc = Returns formatted ->
  (Check_init rt desc i fd vf fl cfg st <> (Raises (AssertionError CHECK_ID_MESSAGE), st) <->
   exists scope word digits tail,
     i = scope +:+ "_" +:+ word +:+ "_" +:+ digits +:+ tail /\
     scope ∈ SCOPES /\
     forallb (fun c => negb (Re.is_digit c)) (list_ascii_of_string word) = true /\
     String.length digits = 4%nat /\
     forallb Re.is_digit (list_ascii_of_string digits) = true /\
     (tail = EmptyString \/ tail = String Re.newline EmptyString)).
Proof.
  intros Hf. rewrite <- check_id_pattern_lang.
  rewrite (Check_init_id_step rt desc i fd vf fl cfg st formatted Hf).
  destruct (re_match_check_id i); split; congruence.
Qed.

(** Extra X2.  When [flag_desc] is a dict, a construction that raises, at
    the formatting of the description or at either assertion, leaves the
    store as it was: nothing is registered and the dict is not written. *)
Theorem Check_init_failure_leaves_store desc i fd vf fl cfg st e st' :
  is_Some (dicts st !! fd) ->
  Check_init rt desc i fd vf fl cfg st = (Raises e, st') ->
  st' = st.
Proof.
  intros [d Hd]. unfold Check_init.
  destruct (str_format _ _ _) as [formatted|e0]; [|now intros [= _ <-]].
  intros E. apply Check_register_raises in E as [->|(_ & Hnone & _)]; [reflexivity|].
  cbn [flag_desc] in Hnone. congruence.
Qed.

(** Extra X3.  When [flag_desc] is no dict (its address holds none), an
    otherwise acceptable construction raises a [TypeError] at the last
    statement of [__post_init__], after the check has been appended to
    [allChecks]: the id is taken, and a later construction under it
    fails. *)
Theorem Check_init_registers_before_flag_desc desc i fd vf fl cfg st formatted :
  dicts st !! fd = None ->
  str_format (format_ext rt) cfg desc = Returns formatted ->
  re_match_check_id i = true -> i ∉ registered_ids st ->
  exists st',
    Check_init rt desc i fd vf fl cfg st
      = (Raises (TypeError "object does not support item assignment"), st') /\
    i ∈ registered_ids st' /\
    allChecks st' = allChecks st ++ [fresh (dom (checks st))] /\
    forall desc2 fd2 vf2 fl2 cfg2,
      exists e2, Check_init rt desc2 i fd2 vf2 fl2 cfg2 st' = (Raises e2, st').
Proof.
  intros Hd Hf Hm Hn. eexists. split; [|split; [|split]].
  - unfold Check_init, Check_register. rewrite Hf. cbn [id flag_desc].
    rewrite Hm. cbn [negb]. rewrite bool_decide_eq_false_2 by exact Hn.
    cbn [dicts set_checks]. rewrite Hd. reflexivity.
  - apply registered_ids_elem. eexists _, _. cbn [allChecks checks set_checks].
    split; [apply elem_of_app; right; apply list_elem_of_singleton; reflexivity|].
    split; [apply lookup_insert_eq | reflexivity].
  - reflexivity.
  - intros desc2 fd2 vf2 fl2 cfg2. apply Check_init_duplicate.
    apply registered_ids_elem. eexists _, _. cbn [allChecks checks set_checks].
    split; [apply elem_of_app; right; apply list_elem_of_singleton; reflexivity|].
    split; [apply lookup_insert_eq | reflexivity].
Qed.

(** Extra X4.  A successful construction touches nothing but what it
    creates: the new address goes to the end of [allChecks], every check
    that existed is as it was, the dict it was given keeps every entry but
    the DEV_UNHANDLED one, which is overwritten whatever it held, and the
    catch-all and the log are as they were. *)
Theorem Check_init_changes_only desc i fd vf fl cfg st l st' d :
  dicts st !! fd = Some d ->
  Check_init rt desc i fd vf fl cfg st = (Returns l, st') ->
  allChecks st' = allChecks st ++ [l] /\
  (forall l' c, checks st !! l' = Some c -> checks st' !! l' = Some c) /\
  (forall k, k <> DEV_UNHANDLED -> flag_desc_getitem st' l k = d !! k) /\
  flag_desc_getitem st' l DEV_UNHANDLED = Some DEV_UNHANDLED_TEMPLATE /\
  ALLOWED_DEV_EXCEPTIONS st' = ALLOWED_DEV_EXCEPTIONS st /\ log st' = log st.
Proof.
  intros Hd E.
  apply Check_init_returns in E as (formatted & d' & _ & _ & _ & -> & Hd' & ->).
  rewrite Hd in Hd'. injection Hd' as <-.
  pose proof (fresh_check_unused st) as Hfresh.
  unfold registered, flag_desc_getitem. cbv zeta.
  cbn [allChecks checks dicts ALLOWED_DEV_EXCEPTIONS log set_dicts set_checks flag_desc].
  split; [reflexivity|]. split; [|split; [|split]].
  - intros l' c Hc. rewrite lookup_insert_ne; [exact Hc|]. intros <-. congruence.
  - intros k Hk. rewrite lookup_insert_eq. cbn. rewrite lookup_insert_eq. cbn.
    now rewrite lookup_insert_ne.
  - rewrite lookup_insert_eq. cbn. rewrite lookup_insert_eq. cbn. apply lookup_insert_eq.
  - auto.
Qed.

(** Extra X5.  In a registry that is in order, a successful construction
    appends its id, and only that, to the list of registered ids, which
    therefore lists the ids in the order of construction. *)
Theorem Check_init_appends_id desc i fd vf fl cfg st l st' :
  registry_ok st ->
  Check_init rt desc i fd vf fl cfg st = (Returns l, st') ->
  registered_ids st' = registered_ids st ++ [i] /\ registry_ok st'.
Proof.
  intros Hok E. split.
  - apply Check_init_returns in E as (formatted & d & _ & _ & _ & -> & _ & ->).
    unfold registered. cbv zeta. rewrite registered_ids_set_dicts.
    rewrite registered_ids_append; [reflexivity | apply Hok | apply fresh_check_unused].
  - pose proof (Check_init_step rt desc i fd vf fl cfg st) as [Hstep _].
    rewrite E in Hstep. auto.
Qed.

(** Extra X6.  With validation functions that respect the registry, no
    run of constructions, validations and copies takes an id out of the
    registry. *)
Theorem registry_never_shrinks ops st i :
  respects_registry rt ->
  i ∈ registered_ids st -> i ∈ registered_ids (run rt ops st).
Proof. intros Hrt. now apply (run_step rt Hrt ops st). Qed.

(** Extra X13.  A description without braces is kept as it is, whatever
    the config holds: construction goes straight to the id assertion with
    the description unchanged. *)
Theorem Check_init_brace_free_description desc i fd vf fl cfg st :
  brace_free desc = true ->
  Check_init rt desc i fd vf fl cfg st
  = Check_register
      {| description := desc; id := i; flag_desc := fd; validate_func := vf;
         flags := fl; config := cfg; _proto_description := desc |} st.
Proof.
  intros Hb. unfold Check_init. now rewrite format_brace_free.
Qed.
End CheckConstruction.

(** ** More on copies *)

Section CopyComposition.
Variable rt : Runtime.

(** Extra X7.  A registered check cannot be copied under its own id: the
    copy raises and the store is left as it was. *)
Theorem copy_under_own_id_fails self c cfg st :
  checks st !! self = Some c -> self ∈ allChecks st ->
  exists e, copy_with_new_config rt self (id c) cfg st = (Raises e, st).
Proof.
  intros Hc Hreg. unfold copy_with_new_config. rewrite Hc.
  apply Check_init_duplicate, registered_ids_elem. eauto.
Qed.

(** Extra X8.  Copies compose: a copy of a copy has the template, the
    [flag_desc] dict and the validation function of the original, the
    three checks live at three different addresses, and the original is
    untouched. *)
Theorem copy_of_copy_shares self c st i1 cfg1 l1 st1 i2 cfg2 l2 st2 :
  checks st !! self = Some c ->
  copy_with_new_config rt self i1 cfg1 st = (Returns l1, st1) ->
  copy_with_new_config rt l1 i2 cfg2 st1 = (Returns l2, st2) ->
  l1 <> self /\ l2 <> self /\ l2 <> l1 /\
  checks st2 !! self = Some c /\
  exists c2,
    checks st2 !! l2 = Some c2 /\ id c2 = i2 /\ config c2 = cfg2 /\ flags c2 = [] /\
    _proto_description c2 = _proto_description c /\
    flag_desc c2 = flag_desc c /\ validate_func c2 = validate_func c /\
    forall k, flag_desc_getitem st2 l2 k = flag_desc_getitem st2 self k.
Proof.
  intros Hc E1 E2.
  destruct (copy_with_new_config_returns rt self i1 cfg1 st c l1 st1 Hc E1)
    as (Hne1 & _ & Hself1 & c1 & Hc1 & _ & Hp1 & Hfd1 & Hvf1 & _).
  destruct (copy_with_new_config_returns rt l1 i2 cfg2 st1 c1 l2 st2 Hc1 E2)
    as (Hne2 & Hfresh2 & Hl1 & c2 & Hc2 & Hfl2 & Hp2 & Hfd2 & Hvf2 & Hid2 & Hcfg2 & _).
  assert (Hself2 : checks st2 !! self = Some c).
  { unfold copy_with_new_config in E2. rewrite Hc1 in E2.
    apply Check_init_returns in E2 as (formatted & d & _ & _ & _ & -> & _ & ->).
    unfold registered. cbv zeta. cbn [checks set_dicts set_checks].
    rewrite lookup_insert_ne; [exact Hself1|]. intros <-.
    rewrite fresh_check_unused in Hself1. discriminate. }
  split; [exact Hne1|]. split; [congruence|]. split; [exact Hne2|].
  split; [exact Hself2|]. exists c2.
  repeat (split; [first [assumption | congruence]|]).
  intros k. unfold flag_desc_getitem. rewrite Hc2, Hself2. cbn. congruence.
Qed.

(** Extra X9.  Every copy writes the DEV_UNHANDLED template again into
    the dict it shares with its source: a template the source had been
    given for that code in the meantime is lost, for the source too, and
    every other entry stays. *)
Theorem copy_resets_unhandled_template self c st i cfg l st' :
  checks st !! self = Some c ->
  copy_with_new_config rt self i cfg st = (Returns l, st') ->
  flag_desc_getitem st' self DEV_UNHANDLED = Some DEV_UNHANDLED_TEMPLATE /\
  forall k, k <> DEV_UNHANDLED -> flag_desc_getitem st' self k = flag_desc_getitem st self k.
Proof.
  intros Hc E.
  destruct (copy_with_new_config_returns rt self i cfg st c l st' Hc E)
    as (_ & _ & Hself & _).
  unfold copy_with_new_config in E. rewrite Hc in E.
  apply Check_init_returns in E as (formatted & d & _ & _ & _ & _ & Hd & Est).
  unfold flag_desc_getitem. rewrite Hself, Hc. cbn. rewrite Hd, Est.
  unfold registered. cbv zeta. cbn [dicts set_dicts flag_desc].
  rewrite lookup_insert_eq. cbn. split; [apply lookup_insert_eq|].
  intros k Hk. now rewrite lookup_insert_ne.
Qed.
End CopyComposition.

(** ** More on flags and on [validate] *)

Section ValidateEdges.
Variable rt : Runtime.

(** Extra X10.  A flag construction that raises, for whatever reason,
    records nothing; and when the message has been formatted and the
    strict type check rejects the flag, it is the type check's exception
    that leaves the constructor. *)
Theorem Flag_init_failure_records_nothing cd chk margs st :
  (forall e st', Flag_init rt cd chk margs st = (Raises e, st') -> st' = st) /\
  (forall c d pre msg e,
      checks st !! chk = Some c -> dicts st !! flag_desc c = Some d ->
      d !! cd = Some pre -> str_format (format_ext rt) margs pre = Returns msg ->
      strict_type_checks rt
        {| code := cd; check := chk; message_args := margs; message := msg |} = Some e ->
      Flag_init rt cd chk margs st = (Raises e, st)).
Proof.
  split.
  - intros e st'. apply Flag_init_raises.
  - intros c d pre msg e Hc Hd Hk Hf Hs. unfold Flag_init.
    rewrite Hc, Hd, Hk, Hf. cbv zeta. now rewrite Hs.
Qed.

(** What the handler of [validate] does with an exception it catches. *)
Lemma validate_handler self args st c e st1 :
  checks st !! self = Some c ->
  call_validate_func rt self c args st = (Raises e, st1) ->
  except_matches (ALLOWED_DEV_EXCEPTIONS st1) e = true ->
  validate rt self args st
  = let st2 := log_critical st1
                 "Developer exception raised during a validation function for check: " self in
    let f := func_value (from_option validate_func (validate_func c) (checks st2 !! self)) in
    match Flag_init rt DEV_UNHANDLED self {[ "function" := f; "e" := VExc e ]} st2 with
    | (Returns fl, st3) => (Returns (RFlag fl), st3)
    | (Raises e', st3) => (Raises e', st3)
    end.
Proof. intros Hc Hcall Hexc. unfold validate. now rewrite Hc, Hcall, Hexc. Qed.

(** Extra X11.  A check without a validation function does not make
    [validate] raise when [TypeError] is caught (as by default): the call
    of [None] fails, and what comes back is a DEV_UNHANDLED flag that
    names [None] as the function. *)
Theorem validate_without_function self args st c d :
  checks st !! self = Some c -> validate_func c = None ->
  except_matches (ALLOWED_DEV_EXCEPTIONS st)
    (TypeError "'NoneType' object is not callable") = true ->
  dicts st !! flag_desc c = Some d ->
  d !! DEV_UNHANDLED = Some DEV_UNHANDLED_TEMPLATE ->
  (forall fl, strict_type_checks rt fl = None) ->
  exists fl st',
    validate rt self args st = (Returns (RFlag fl), st') /\
    code fl = DEV_UNHANDLED /\
    message fl
    = "An unhandled exception occured in None: 'NoneType' object is not callable" /\
    exists c', checks st' !! self = Some c' /\ flags c' = flags c ++ [fl].
Proof.
  intros Hc Hnone Hexc Hd Hk Hty.
  assert (Hcall : call_validate_func rt self c args st
                  = (Raises (TypeError "'NoneType' object is not callable"), st)).
  { unfold call_validate_func. now rewrite Hnone. }
  rewrite (validate_handler self args st c _ st Hc Hcall Hexc). cbv zeta.
  cbn [checks log_critical]. rewrite Hc. cbn [from_option]. rewrite Hnone.
  cbn [func_value].
  set (ma := ({[ "function" := VObj "None";
                 "e" := VExc (TypeError "'NoneType' object is not callable") ]}
                : gmap string pyval)).
  set (st2 := log_critical st _ self).
  set (fl := {| code := DEV_UNHANDLED; check := self; message_args := ma;
                message := "An unhandled exception occured in None: 'NoneType' object is not callable" |}).
  assert (E : Flag_init rt DEV_UNHANDLED self ma st2
              = (Returns fl, set_checks st2 [] (<[self := append_flag c fl]> (checks st2)))).
  { apply Flag_init_returns. exists c, d, DEV_UNHANDLED_TEMPLATE, (message fl).
    split; [exact Hc|]. split; [exact Hd|]. split; [exact Hk|]. split.
    - apply (format_dev_unhandled rt ma (VObj "None")
               (VExc (TypeError "'NoneType' object is not callable"))).
      + apply lookup_insert_eq.
      + unfold ma. rewrite lookup_insert_ne by discriminate. apply lookup_singleton_eq.
    - split; [reflexivity|]. split; [apply Hty | reflexivity]. }
  rewrite E. exists fl. eexists. split; [reflexivity|].
  split; [reflexivity|]. split; [reflexivity|].
  eexists. cbn [checks set_checks]. split; [apply lookup_insert_eq | reflexivity].
Qed.

(** Extra X12.  The handler relies on the DEV_UNHANDLED entry of the
    shared dict: when the entry is gone, an exception that is caught is
    replaced by a [KeyError] that leaves [validate]; the critical record
    has been logged, and no flag is recorded. *)
Theorem validate_without_template_raises self args st c e st1 c1 d :
  checks st !! self = Some c ->
  call_validate_func rt self c args st = (Raises e, st1) ->
  except_matches (ALLOWED_DEV_EXCEPTIONS st1) e = true ->
  checks st1 !! self = Some c1 -> dicts st1 !! flag_desc c1 = Some d ->
  d !! DEV_UNHANDLED = None ->
  exists st2,
    validate rt self args st = (Raises (KeyError (FlagCode_repr DEV_UNHANDLED)), st2) /\
    checks st2 = checks st1 /\ dicts st2 = dicts st1 /\
    log st2 = log st1
                ++ [("Developer exception raised during a validation function for check: ", self)].
Proof.
  intros Hc Hcall Hexc Hc1 Hd Hk.
  rewrite (validate_handler self args st c e st1 Hc Hcall Hexc). cbv zeta.
  unfold Flag_init. cbn [checks dicts log_critical]. rewrite Hc1, Hd, Hk.
  eexists. split; [reflexivity|]. auto.
Qed.
End ValidateEdges.

(** ** More on [validate_all] *)

Section VVProtocolMore.
Context {DS SM CP : Type} `{Countable DS, Countable SM, Countable CP} {W : Type}.
Implicit Types (self : VVProtocol DS SM CP) (m : VVMethods DS SM CP W).

Lemma dict_update_keeps_keys {K V} `{Countable K} (d other : gmap K V) k :
  is_Some (d !! k) -> is_Some (dict_update d other !! k).
Proof. rewrite dict_update_lookup. destruct (other !! k); eauto. Qed.

(** Extra X14.  Whatever [validate_all] comes to, a return or an exception
    out of any of the three methods, the protocol keeps its dataset and no
    entity that had flags loses its entry in any of the three mappings. *)
Theorem validate_all_keeps_keys m self w :
  let self' := fst (snd (validate_all m self w)) in
  dataset self' = dataset self /\
  (forall k, is_Some (flags_dataset (VVProtocol_flags self) !! k) ->
             is_Some (flags_dataset (VVProtocol_flags self') !! k)) /\
  (forall k, is_Some (flags_sample (VVProtocol_flags self) !! k) ->
             is_Some (flags_sample (VVProtocol_flags self') !! k)) /\
  (forall k, is_Some (flags_component (VVProtocol_flags self) !! k) ->
             is_Some (flags_component (VVProtocol_flags self') !! k)).
Proof.
  cbv zeta. unfold validate_all, VVProtocol_flags.
  destruct (validate_dataset m self w) as [[d|e] w1]; cbn [fst snd]; [|auto].
  destruct (validate_samples m _ w1) as [[s|e] w2]; cbn [fst snd].
  2: { cbn. repeat split; auto. intros k. apply dict_update_keeps_keys. }
  destruct (validate_components m _ w2) as [[c|e] w3]; cbn [fst snd]; cbn;
    repeat split; auto; intros k; apply dict_update_keeps_keys.
Qed.

Lemma dict_update_subseteq {K V} `{Countable K} (d other : gmap K V) :
  other ⊆ d -> dict_update d other = d.
Proof. unfold dict_update. apply map_subseteq_union. Qed.

(** Extra X15.  Running [validate_all] again is harmless when the methods
    report what the mappings already hold: if each of the three returned
    mappings is contained in the mapping stored for it, the protocol comes
    out unchanged (no flag is stored twice). *)
Theorem validate_all_same_results m self w d w1 s w2 c w3 :
  validate_dataset m self w = (Returns d, w1) ->
  validate_samples m self w1 = (Returns s, w2) ->
  validate_components m self w2 = (Returns c, w3) ->
  d ⊆ flags_dataset (VVProtocol_flags self) ->
  s ⊆ flags_sample (VVProtocol_flags self) ->
  c ⊆ flags_component (VVProtocol_flags self) ->
  validate_all m self w = (Returns tt, (self, w3)).
Proof.
  intros Ed Es Ec Hd Hs Hc. unfold VVProtocol_flags in *.
  assert (U1 : update_dataset self d = self).
  { destruct self as [ds [fd fs fc]]. unfold update_dataset. cbn in *.
    now rewrite dict_update_subseteq. }
  assert (U2 : update_sample self s = self).
  { destruct self as [ds [fd fs fc]]. unfold update_sample. cbn in *.
    now rewrite dict_update_subseteq. }
  assert (U3 : update_component self c = self).
  { destruct self as [ds [fd fs fc]]. unfold update_component. cbn in *.
    now rewrite dict_update_subseteq. }
  unfold validate_all. rewrite Ed. cbv zeta. rewrite U1, Es, U2, Ec, U3. reflexivity.
Qed.
End VVProtocolMore.

(** ** The locators *)

Section LocaterFacts.
Import Locaters ReFacts.
Context {P : Type}.
Variable fs : PathOps P.
Variable ext : field_ops.

Lemma str_replace_char_app old new (a b : string) :
  str_replace_char old new (a +:+ b)
  = str_replace_char old new a +:+ str_replace_char old new b.
Proof.
  induction a as [|c a IH]; [reflexivity|].
  rewrite append_cons. cbn [str_replace_char]. rewrite IH.
  destruct (Ascii.eqb c old); [now rewrite append_assoc | now rewrite append_cons].
Qed.

Lemma escape_backslashes_app (a b : string) :
  escape_backslashes (a +:+ b) = escape_backslashes a +:+ escape_backslashes b.
Proof. apply str_replace_char_app. Qed.

Lemma escape_backslashes_plain (s : string) :
  forallb (fun c => negb (Ascii.eqb c backslash)) (list_ascii_of_string s) = true ->
  escape_backslashes s = s.
Proof.
  unfold escape_backslashes. induction s as [|c s IH]; [reflexivity|].
  cbn [list_ascii_of_string forallb str_replace_char]. intros Hs.
  apply andb_prop in Hs as [Hc Hs]. apply negb_true_iff in Hc.
  now rewrite Hc, IH.
Qed.

Lemma escape_backslashes_inj (s t : string) :
  escape_backslashes s = escape_backslashes t -> s = t.
Proof.
  unfold escape_backslashes. revert t.
  induction s as [|c s IH]; intros [|c' t]; cbn [str_replace_char].
  - reflexivity.
  - destruct (Ascii.eqb c' backslash); discriminate.
  - destruct (Ascii.eqb c backslash); discriminate.
  - destruct (Ascii.eqb c backslash) eqn:Ec, (Ascii.eqb c' backslash) eqn:Ec'.
    + apply Ascii.eqb_eq in Ec, Ec'. subst. rewrite !append_cons, !append_nil_l.
      intros [= E]. now rewrite (IH _ E).
    + rewrite !append_cons, !append_nil_l. intros [= E _]. subst c'.
      now rewrite Ascii.eqb_refl in Ec'.
    + rewrite !append_cons, !append_nil_l. intros [= E _]. subst c.
      now rewrite Ascii.eqb_refl in Ec.
    + intros [= -> E]. now rewrite (IH _ E).
Qed.

Lemma length_append (a b : string) :
  String.length (a +:+ b) = (String.length a + String.length b)%nat.
Proof. induction a as [|c a IH]; [reflexivity|]. rewrite append_cons. cbn. now rewrite IH. Qed.

(** Two strings that end in suffixes of one length agree on the suffix and
    on what stands before it. *)
Lemma append_inj_suffix (a b s t : string) :
  String.length s = String.length t -> a +:+ s = b +:+ t -> a = b /\ s = t.
Proof.
  intros Hlen. revert b. induction a as [|c a IH]; intros [|c' b] E.
  - auto.
  - exfalso. rewrite append_nil_l in E. subst s.
    rewrite length_append in Hlen. cbn in Hlen. lia.
  - exfalso. rewrite append_nil_l in E. subst t.
    rewrite length_append in Hlen. cbn in Hlen. lia.
  - rewrite !append_cons in E. injection E as -> E.
    destruct (IH _ E) as [-> ->]. auto.
Qed.

(** The second assertion of a [find] cannot fail: there is one candidate,
    and it is returned when [exists()] answers [True]; an error of
    [exists()] goes through, after the debug record. *)
Lemma exact_find_result (search_root : P) pattern debug :
  exact_find fs search_root pattern debug = (locate fs search_root pattern, [debug]).
Proof.
  unfold exact_find, locate. cbv zeta.
  destruct (path_exists fs (truediv fs search_root pattern)) as [[|]|e]; reflexivity.
Qed.

(** The three ways a search ends. *)
Lemma locate_cases (search_root : P) pattern :
  (path_exists fs (truediv fs search_root pattern) = Returns true ->
   locate fs search_root pattern = Returns (truediv fs search_root pattern)) /\
  (path_exists fs (truediv fs search_root pattern) = Returns false ->
   locate fs search_root pattern
   = Raises (AssertionError
               ("Target does not exist. Expected: "
                +:+ path_str fs (truediv fs search_root pattern)
                +:+ ". Pattern: " +:+ pattern))) /\
  (forall e, path_exists fs (truediv fs search_root pattern) = Raises e ->
             locate fs search_root pattern = Raises e).
Proof. unfold locate. repeat split; intros; now rewrite H. Qed.

End LocaterFacts.

Section LocaterPatterns.
Import Locaters ReFacts.
Variable ext : field_ops.

Ltac one_field pre field suf value :=
  match goal with
  | |- context [table_getitem ?t ?ty] =>
      replace (table_getitem t ty)
        with (Returns (A:=string) (pre +:+ String "{" (field +:+ String "}" suf)))
        by (vm_compute; reflexivity)
  end;
  rewrite (format_one_field ext _ pre field suf (VStr value))
    by first [reflexivity | apply lookup_singleton_eq];
  cbn [py_str]; rewrite !escape_backslashes_app; reflexivity.

Ltac two_fields pre mid value1 value2 :=
  match goal with
  | |- context [table_getitem ?t ?ty] =>
      replace (table_getitem t ty)
        with (Returns (A:=string)
                (pre +:+ String "{" ("sample_name" +:+ String "}"
                   (mid +:+ String "{" ("ext" +:+ String "}" EmptyString)))))
        by (vm_compute; reflexivity)
  end;
  rewrite (format_two_fields ext _ pre "sample_name" mid "ext" EmptyString
             (VStr value1) (VStr value2))
    by first [reflexivity | apply lookup_insert_eq
             | (rewrite lookup_insert_ne by discriminate; apply lookup_singleton_eq)];
  cbn [py_str]; rewrite !escape_backslashes_app, !append_empty_r; reflexivity.

Lemma Fastq_pattern_eval o name :
  let sep := pattern_sep o in
  let n := escape_backslashes name in
  Fastq_pattern ext o name ("Raw", "Forward")
    = Returns ("00-RawData" +:+ sep +:+ "Fastq" +:+ sep +:+ n +:+ "_R1_raw.fastq.gz") /\
  Fastq_pattern ext o name ("Raw", "Reverse")
    = Returns ("00-RawData" +:+ sep +:+ "Fastq" +:+ sep +:+ n +:+ "_R2_raw.fastq.gz") /\
  Fastq_pattern ext o name ("Trimmed", "Forward")
    = Returns ("01-TG_Preproc" +:+ sep +:+ "Fastq" +:+ sep +:+ n +:+ "_R1_trimmed.fastq.gz") /\
  Fastq_pattern ext o name ("Trimmed", "Reverse")
    = Returns ("01-TG_Preproc" +:+ sep +:+ "Fastq" +:+ sep +:+ n +:+ "_R2_trimmed.fastq.gz").
Proof.
  cbv zeta. unfold Fastq_pattern. destruct o; (split; [|split; [|split]]).
  - one_field "00-RawData/Fastq/" "sample_name" "_R1_raw.fastq.gz" name.
  - one_field "00-RawData/Fastq/" "sample_name" "_R2_raw.fastq.gz" name.
  - one_field "01-TG_Preproc/Fastq/" "sample_name" "_R1_trimmed.fastq.gz" name.
  - one_field "01-TG_Preproc/Fastq/" "sample_name" "_R2_trimmed.fastq.gz" name.
  - one_field "00-RawData\Fastq\" "sample_name" "_R1_raw.fastq.gz" name.
  - one_field "00-RawData\Fastq\" "sample_name" "_R2_raw.fastq.gz" name.
  - one_field "01-TG_Preproc\Fastq\" "sample_name" "_R1_trimmed.fastq.gz" name.
  - one_field "01-TG_Preproc\Fastq\" "sample_name" "_R2_trimmed.fastq.gz" name.
Qed.

Lemma FastqcReport_pattern_eval o name e :
  let sep := pattern_sep o in
  let n := escape_backslashes name in
  let x := escape_backslashes e in
  FastqcReport_pattern ext o name ("Raw", "Forward") e
    = Returns ("00-RawData" +:+ sep +:+ "FastQC_Reports" +:+ sep +:+ n +:+ "_R1_raw_fastqc." +:+ x) /\
  FastqcReport_pattern ext o name ("Raw", "Reverse") e
    = Returns ("00-RawData" +:+ sep +:+ "FastQC_Reports" +:+ sep +:+ n +:+ "_R2_raw_fastqc." +:+ x) /\
  FastqcReport_pattern ext o name ("Trimmed", "Forward") e
    = Returns ("01-TG_Preproc" +:+ sep +:+ "FastQC_Reports" +:+ sep +:+ n
               +:+ "_R1_trimmed_fastqc." +:+ x) /\
  FastqcReport_pattern ext o name ("Trimmed", "Reverse") e
    = Returns ("01-TG_Preproc" +:+ sep +:+ "FastQC_Reports" +:+ sep +:+ n
               +:+ "_R2_trimmed_fastqc." +:+ x).
Proof.
  cbv zeta. unfold FastqcReport_pattern. destruct o; (split; [|split; [|split]]).
  - two_fields "00-RawData/FastQC_Reports/" "_R1_raw_fastqc." name e.
  - two_fields "00-RawData/FastQC_Reports/" "_R2_raw_fastqc." name e.
  - two_fields "01-TG_Preproc/FastQC_Reports/" "_R1_trimmed_fastqc." name e.
  - two_fields "01-TG_Preproc/FastQC_Reports/" "_R2_trimmed_fastqc." name e.
  - two_fields "00-RawData\FastQC_Reports\" "_R1_raw_fastqc." name e.
  - two_fields "00-RawData\FastQC_Reports\" "_R2_raw_fastqc." name e.
  - two_fields "01-TG_Preproc\FastQC_Reports\" "_R1_trimmed_fastqc." name e.
  - two_fields "01-TG_Preproc\FastQC_Reports\" "_R2_trimmed_fastqc." name e.
Qed.

Lemma Runsheet_pattern_eval o name :
  Runsheet_pattern ext o name
  = Returns ("Metadata" +:+ pattern_sep o +:+ "AST_autogen_template_RNASeq_RCP_"
             +:+ name +:+ "_RNASeq_runsheet.csv").
Proof.
  unfold Runsheet_pattern. destruct o.
  - change (Runsheet_EXACT_PATH_FORMAT posix)
      with ("Metadata/AST_autogen_template_RNASeq_RCP_"
            +:+ String "{" ("datasystem_name" +:+ String "}" "_RNASeq_runsheet.csv")).
    rewrite (format_one_field ext _ _ "datasystem_name" _ (VStr name))
      by first [reflexivity | apply lookup_singleton_eq].
    reflexivity.
  - change (Runsheet_EXACT_PATH_FORMAT nt)
      with ("Metadata\\AST_autogen_template_RNASeq_RCP_"
            +:+ String "{" ("datasystem_name" +:+ String "}" "_RNASeq_runsheet.csv")).
    rewrite (format_one_field ext _ _ "datasystem_name" _ (VStr name))
      by first [reflexivity | apply lookup_singleton_eq].
    reflexivity.
Qed.

Lemma MultiQCDir_pattern_eval o rel_dir mqc_label :
  MultiQCDir_pattern ext o rel_dir mqc_label
  = Returns (escape_backslashes rel_dir +:+ pattern_sep o
             +:+ escape_backslashes mqc_label +:+ "_multiqc_report").
Proof.
  unfold MultiQCDir_pattern.
  assert (Hkw1 : ({[ "rel_dir" := VStr rel_dir; "mqc_label" := VStr mqc_label ]}
                    : gmap string pyval) !! "rel_dir" = Some (VStr rel_dir))
    by apply lookup_insert_eq.
  assert (Hkw2 : ({[ "rel_dir" := VStr rel_dir; "mqc_label" := VStr mqc_label ]}
                    : gmap string pyval) !! "mqc_label" = Some (VStr mqc_label)).
  { rewrite lookup_insert_ne by discriminate. apply lookup_singleton_eq. }
  destruct o.
  - change (MultiQCDir_EXACT_PATH_FORMAT posix)
      with (EmptyString +:+ String "{" ("rel_dir" +:+ String "}"
              ("/" +:+ String "{" ("mqc_label" +:+ String "}" "_multiqc_report")))).
    rewrite (format_two_fields ext _ _ "rel_dir" _ "mqc_label" _ (VStr rel_dir) (VStr mqc_label))
      by first [reflexivity | assumption].
    cbn [py_str]. rewrite !escape_backslashes_app. reflexivity.
  - change (MultiQCDir_EXACT_PATH_FORMAT nt)
      with (EmptyString +:+ String "{" ("rel_dir" +:+ String "}"
              ("\" +:+ String "{" ("mqc_label" +:+ String "}" "_multiqc_report")))).
    rewrite (format_two_fields ext _ _ "rel_dir" _ "mqc_label" _ (VStr rel_dir) (VStr mqc_label))
      by first [reflexivity | assumption].
    cbn [py_str]. rewrite !escape_backslashes_app. reflexivity.
Qed.
End LocaterPatterns.

(** ** What the locators find *)

Section LocaterFinds.
Import Locaters ReFacts.
Context {P : Type}.
Variable fs : PathOps P.
Variable ext : field_ops.

Lemma exact_find_locate (search_root : P) pattern debug :
  exact_find fs search_root pattern debug = (locate fs search_root pattern, [debug]).
Proof. apply exact_find_result. Qed.

(** Extra X16.  For each of the four types and every sample name,
    [Fastq.find] looks for exactly one path: the stage directory, [Fastq]
    and the sample name with its backslashes doubled, followed by the read
    and stage suffix.  After one debug record it returns that path under
    the search root when [exists()] answers [True], raises the first
    assertion's error when [exists()] answers [False], and raises the
    error of [exists()] when that call fails, as it does on a name the
    file system refuses.  No sample name makes the formatting fail, and
    the second assertion never does. *)
Theorem Fastq_find_result o (search_root : P) name :
  let sep := pattern_sep o in
  let n := escape_backslashes name in
  let looked_for pattern :=
    (locate fs search_root pattern,
     ["Locating raw fastqgz file " +:+ name +:+ " with pattern: " +:+ pattern]) in
  Fastq_find fs ext o search_root name ("Raw", "Forward")
    = looked_for ("00-RawData" +:+ sep +:+ "Fastq" +:+ sep +:+ n +:+ "_R1_raw.fastq.gz") /\
  Fastq_find fs ext o search_root name ("Raw", "Reverse")
    = looked_for ("00-RawData" +:+ sep +:+ "Fastq" +:+ sep +:+ n +:+ "_R2_raw.fastq.gz") /\
  Fastq_find fs ext o search_root name ("Trimmed", "Forward")
    = looked_for ("01-TG_Preproc" +:+ sep +:+ "Fastq" +:+ sep +:+ n +:+ "_R1_trimmed.fastq.gz") /\
  Fastq_find fs ext o search_root name ("Trimmed", "Reverse")
    = looked_for ("01-TG_Preproc" +:+ sep +:+ "Fastq" +:+ sep +:+ n +:+ "_R2_trimmed.fastq.gz").
Proof.
  cbv zeta. destruct (Fastq_pattern_eval ext o name) as (E1 & E2 & E3 & E4).
  unfold Fastq_find. rewrite E1, E2, E3, E4, !exact_find_locate. auto.
Qed.

(** Extra X17.  [FastqcReport.find] likewise: the pattern is the stage
    directory, [FastQC_Reports], the sample name, the read and stage
    suffix and the extension, backslashes doubled in both the name and the
    extension; the search ends in one of the same three ways, the error of
    [exists()] included. *)
Theorem FastqcReport_find_result o (search_root : P) name e :
  let sep := pattern_sep o in
  let n := escape_backslashes name in
  let x := escape_backslashes e in
  let looked_for pattern :=
    (locate fs search_root pattern,
     ["Locating raw fastqgz file " +:+ name +:+ " with pattern: " +:+ pattern]) in
  FastqcReport_find fs ext o search_root name ("Raw", "Forward") e
    = looked_for ("00-RawData" +:+ sep +:+ "FastQC_Reports" +:+ sep +:+ n
                  +:+ "_R1_raw_fastqc." +:+ x) /\
  FastqcReport_find fs ext o search_root name ("Raw", "Reverse") e
    = looked_for ("00-RawData" +:+ sep +:+ "FastQC_Reports" +:+ sep +:+ n
                  +:+ "_R2_raw_fastqc." +:+ x) /\
  FastqcReport_find fs ext o search_root name ("Trimmed", "Forward") e
    = looked_for ("01-TG_Preproc" +:+ sep +:+ "FastQC_Reports" +:+ sep +:+ n
                  +:+ "_R1_trimmed_fastqc." +:+ x) /\
  FastqcReport_find fs ext o search_root name ("Trimmed", "Reverse") e
    = looked_for ("01-TG_Preproc" +:+ sep +:+ "FastQC_Reports" +:+ sep +:+ n
                  +:+ "_R2_trimmed_fastqc." +:+ x).
Proof.
  cbv zeta. destruct (FastqcReport_pattern_eval ext o name e) as (E1 & E2 & E3 & E4).
  unfold FastqcReport_find. rewrite E1, E2, E3, E4, !exact_find_locate. auto.
Qed.

(** Extra X18.  [Runsheet.find] puts the data system name into the
    pattern as it is: here the backslashes are doubled in the template
    before the name is filled in, so those of the name are not.  The
    search returns the path, raises the first assertion's error, or
    raises the error of [exists()]. *)
Theorem Runsheet_find_result o (search_root : P) name :
  let pattern :=
    "Metadata" +:+ pattern_sep o +:+ "AST_autogen_template_RNASeq_RCP_"
    +:+ name +:+ "_RNASeq_runsheet.csv" in
  Runsheet_find fs ext o search_root name
  = (locate fs search_root pattern,
     ["Locating Runsheet file " +:+ name +:+ " with pattern: " +:+ pattern]).
Proof.
  cbv zeta. unfold Runsheet_find.
  now rewrite Runsheet_pattern_eval, exact_find_locate.
Qed.

(** Extra X19.  [MultiQCDir.find] looks for the relative directory, a
    separator, the label and [_multiqc_report], backslashes doubled in the
    directory and in the label.  The search returns the path, raises the
    first assertion's error, or raises the error of [exists()]. *)
Theorem MultiQCDir_find_result o (search_root : P) rel_dir mqc_label :
  let pattern :=
    escape_backslashes rel_dir +:+ pattern_sep o
    +:+ escape_backslashes mqc_label +:+ "_multiqc_report" in
  MultiQCDir_find fs ext o search_root rel_dir mqc_label
  = (locate fs search_root pattern,
     ["Locating multiQC direcotry MultiQCDir with pattern: " +:+ pattern]).
Proof.
  cbv zeta. unfold MultiQCDir_find.
  now rewrite MultiQCDir_pattern_eval, exact_find_locate.
Qed.

Lemma table_getitem_unknown_stage (table : gmap string (gmap string string)) type :
  table !! fst type = None ->
  table_getitem table type = Raises (KeyError ("'" +:+ fst type +:+ "'")).
Proof. intros E. unfold table_getitem. now rewrite E. Qed.

Lemma two_keys_lookup {V} (a b : string) (x y : V) k :
  ({[ a := x; b := y ]} : gmap string V) !! k
  = if decide (k = a) then Some x else if decide (k = b) then Some y else None.
Proof.
  destruct (decide (k = a)) as [->|Ha]; [apply lookup_insert_eq|].
  rewrite lookup_insert_ne by congruence.
  destruct (decide (k = b)) as [->|Hb]; [apply lookup_singleton_eq|].
  apply lookup_singleton_ne. congruence.
Qed.

(** Extra X20.  A type outside the table stops [Fastq.find] and
    [FastqcReport.find] with a [KeyError] on the offending key, the stage
    first, before anything is logged or looked for. *)
Theorem find_unknown_type o (search_root : P) name e type :
  (fst type <> "Raw" -> fst type <> "Trimmed" ->
   Fastq_find fs ext o search_root name type
     = (Raises (KeyError ("'" +:+ fst type +:+ "'")), []) /\
   FastqcReport_find fs ext o search_root name type e
     = (Raises (KeyError ("'" +:+ fst type +:+ "'")), [])) /\
  (fst type = "Raw" \/ fst type = "Trimmed" ->
   snd type <> "Forward" -> snd type <> "Reverse" ->
   Fastq_find fs ext o search_root name type
     = (Raises (KeyError ("'" +:+ snd type +:+ "'")), []) /\
   FastqcReport_find fs ext o search_root name type e
     = (Raises (KeyError ("'" +:+ snd type +:+ "'")), [])).
Proof.
  destruct type as [k0 k1]. cbn [fst snd].
  unfold Fastq_find, FastqcReport_find, Fastq_pattern, FastqcReport_pattern, table_getitem,
    Fastq_EXACT_PATH_FORMAT, FastqcReport_EXACT_PATH_FORMAT. cbn [fst snd].
  split.
  - intros H1 H2. rewrite !two_keys_lookup.
    rewrite !decide_False by assumption. auto.
  - intros Hk0 H1 H2. rewrite !(two_keys_lookup "Raw" "Trimmed").
    destruct Hk0 as [-> | ->];
      repeat (case_decide; try first [discriminate | congruence]);
      rewrite ?two_keys_lookup;
      repeat (case_decide; try first [contradiction | congruence]);
      auto.
Qed.

(** Extra X22.  None of the four [find] methods returns a path that does
    not exist: a path is returned only when [exists()] has answered
    [True] for it, and each return comes with exactly one debug record. *)
Theorem find_returns_existing_path o (search_root : P) :
  (forall name type p lg,
      Fastq_find fs ext o search_root name type = (Returns p, lg) ->
      path_exists fs p = Returns true /\ length lg = 1%nat) /\
  (forall name type e p lg,
      FastqcReport_find fs ext o search_root name type e = (Returns p, lg) ->
      path_exists fs p = Returns true /\ length lg = 1%nat) /\
  (forall name p lg,
      Runsheet_find fs ext o search_root name = (Returns p, lg) ->
      path_exists fs p = Returns true /\ length lg = 1%nat) /\
  (forall rel_dir label p lg,
      MultiQCDir_find fs ext o search_root rel_dir label = (Returns p, lg) ->
      path_exists fs p = Returns true /\ length lg = 1%nat).
Proof.
  assert (Hloc : forall pattern debug p lg,
             exact_find fs search_root pattern debug = (Returns p, lg) ->
             path_exists fs p = Returns true /\ length lg = 1%nat).
  { intros pattern debug p lg. rewrite exact_find_result. unfold locate.
    destruct (path_exists fs (truediv fs search_root pattern)) as [[|]|e] eqn:E;
      [|discriminate|discriminate].
    intros [= <- <-]. auto. }
  repeat split.
  - unfold Fastq_find in H. destruct (Fastq_pattern _ _ _ _); [|discriminate].
    now apply Hloc in H.
  - unfold Fastq_find in H. destruct (Fastq_pattern _ _ _ _); [|discriminate].
    now apply Hloc in H.
  - unfold FastqcReport_find in H. destruct (FastqcReport_pattern _ _ _ _ _); [|discriminate].
    now apply Hloc in H.
  - unfold FastqcReport_find in H. destruct (FastqcReport_pattern _ _ _ _ _); [|discriminate].
    now apply Hloc in H.
  - unfold Runsheet_find in H. destruct (Runsheet_pattern _ _ _); [|discriminate].
    now apply Hloc in H.
  - unfold Runsheet_find in H. destruct (Runsheet_pattern _ _ _); [|discriminate].
    now apply Hloc in H.
  - unfold MultiQCDir_find in H. destruct (MultiQCDir_pattern _ _ _ _); [|discriminate].
    now apply Hloc in H.
  - unfold MultiQCDir_find in H. destruct (MultiQCDir_pattern _ _ _ _); [|discriminate].
    now apply Hloc in H.
Qed.
End LocaterFinds.

Section LocaterInjective.
Import Locaters ReFacts.
Variable ext : field_ops.

Lemma Returns_inj {A} (x y : A) : Returns x = Returns y -> x = y.
Proof. now intros [= ->]. Qed.

Lemma append_inj_prefix (a s t : string) : a +:+ s = a +:+ t -> s = t.
Proof.
  induction a as [|c a IH]; [now rewrite !append_nil_l|].
  rewrite !append_cons. intros [= E]. auto.
Qed.

Lemma Fastq_pattern_valid o name type p :
  Fastq_pattern ext o name type = Returns p ->
  type = ("Raw", "Forward") \/ type = ("Raw", "Reverse") \/
  type = ("Trimmed", "Forward") \/ type = ("Trimmed", "Reverse").
Proof.
  destruct type as [k0 k1].
  unfold Fastq_pattern, table_getitem, Fastq_EXACT_PATH_FORMAT. cbn [fst snd].
  rewrite (two_keys_lookup "Raw" "Trimmed").
  repeat case_decide; subst; try discriminate;
    rewrite two_keys_lookup; repeat case_decide; subst; try discriminate; auto.
Qed.

Ltac same_stage H :=
  rewrite <- !append_assoc in H;
  apply append_inj_suffix in H; [|reflexivity];
  let Hs := fresh "Hs" in
  destruct H as [H Hs];
  first [ discriminate Hs
        | apply append_inj_prefix, escape_backslashes_inj in H; subst; auto ].

Ltac other_stage H := rewrite !append_cons in H; discriminate H.

(** Extra X21.  The pattern of [Fastq.find] tells the sample and the type
    apart: two calls that come to the same pattern were given the same
    sample name and the same type. *)
Theorem Fastq_pattern_injective o name1 type1 name2 type2 p :
  Fastq_pattern ext o name1 type1 = Returns p ->
  Fastq_pattern ext o name2 type2 = Returns p ->
  name1 = name2 /\ type1 = type2.
Proof.
  intros E1 E2.
  pose proof (Fastq_pattern_valid _ _ _ _ E1) as V1.
  pose proof (Fastq_pattern_valid _ _ _ _ E2) as V2.
  destruct (Fastq_pattern_eval ext o name1) as (A1 & A2 & A3 & A4).
  destruct (Fastq_pattern_eval ext o name2) as (B1 & B2 & B3 & B4).
  rewrite <- E2 in E1. clear E2.
  destruct V1 as [-> | [-> | [-> | ->]]]; destruct V2 as [-> | [-> | [-> | ->]]];
    rewrite ?A1, ?A2, ?A3, ?A4, ?B1, ?B2, ?B3, ?B4 in E1;
    apply Returns_inj in E1;
    first [ same_stage E1 | other_stage E1 ].
Qed.
End LocaterInjective.

(** ** The further properties on the concrete scenario *)

Lemma Check_id_assertion_accepts_witness :
  str_format (format_ext demo_rt) demo_config "Check {x}" = Returns "Check present" /\
  (Check_init demo_rt "Check {x}" "SAMPLE_X_0001" 0 None [] demo_config (initial_state demo_dicts)
     <> (Raises (AssertionError CHECK_ID_MESSAGE), initial_state demo_dicts) <->
   exists scope word digits tail,
     "SAMPLE_X_0001" = scope +:+ "_" +:+ word +:+ "_" +:+ digits +:+ tail /\
     scope ∈ SCOPES /\
     forallb (fun c => negb (Re.is_digit c)) (list_ascii_of_string word) = true /\
     String.length digits = 4%nat /\
     forallb Re.is_digit (list_ascii_of_string digits) = true /\
     (tail = EmptyString \/ tail = String Re.newline EmptyString)).
Proof.
  assert (Hf : str_format (format_ext demo_rt) demo_config "Check {x}" = Returns "Check present")
    by (vm_compute; reflexivity).
  split; [exact Hf|].
  exact (Check_id_assertion_accepts demo_rt "Check {x}" "SAMPLE_X_0001" 0 None [] demo_config
           (initial_state demo_dicts) "Check present" Hf).
Defined.

Lemma Check_init_failure_leaves_store_witness :
  is_Some (dicts (initial_state demo_dicts) !! 0%nat) /\
  Check_init demo_rt "Check {x}" "BADSCOPE_X_1" 0 None [] demo_config (initial_state demo_dicts)
    = (Raises (AssertionError CHECK_ID_MESSAGE), initial_state demo_dicts) /\
  initial_state demo_dicts = initial_state demo_dicts.
Proof.
  assert (Hd : is_Some (dicts (initial_state demo_dicts) !! 0%nat)) by (eexists; reflexivity).
  assert (E : Check_init demo_rt "Check {x}" "BADSCOPE_X_1" 0 None [] demo_config
                (initial_state demo_dicts)
              = (Raises (AssertionError CHECK_ID_MESSAGE), initial_state demo_dicts))
    by (vm_compute; reflexivity).
  split; [exact Hd|]. split; [exact E|].
  exact (Check_init_failure_leaves_store demo_rt _ _ _ _ _ _ _ _ _ Hd E).
Defined.

Lemma Check_init_registers_before_flag_desc_witness :
  exists st',
    Check_init demo_rt "Check {x}" "SAMPLE_A_0001" 5 None [] demo_config (initial_state demo_dicts)
      = (Raises (TypeError "object does not support item assignment"), st') /\
    "SAMPLE_A_0001" ∈ registered_ids st' /\
    allChecks st' = allChecks (initial_state demo_dicts)
                      ++ [fresh (dom (checks (initial_state demo_dicts)))] /\
    forall desc2 fd2 vf2 fl2 cfg2,
      exists e2, Check_init demo_rt desc2 "SAMPLE_A_0001" fd2 vf2 fl2 cfg2 st' = (Raises e2, st').
Proof.
  apply (Check_init_registers_before_flag_desc demo_rt "Check {x}" "SAMPLE_A_0001" 5 None []
           demo_config (initial_state demo_dicts) "Check present").
  - reflexivity.
  - vm_compute. reflexivity.
  - reflexivity.
  - cbn. apply not_elem_of_nil.
Defined.

Lemma Check_init_changes_only_witness :
  let st := initial_state demo_dicts in
  let st' := demo_state "green" in
  allChecks st' = allChecks st ++ [0%nat] /\
  (forall l' c, checks st !! l' = Some c -> checks st' !! l' = Some c) /\
  (forall k, k <> DEV_UNHANDLED ->
             flag_desc_getitem st' 0%nat k
             = ({[ GREEN := "ok"; RED1 := "missing {field}" ]} : gmap FlagCode string) !! k) /\
  flag_desc_getitem st' 0%nat DEV_UNHANDLED = Some DEV_UNHANDLED_TEMPLATE /\
  ALLOWED_DEV_EXCEPTIONS st' = ALLOWED_DEV_EXCEPTIONS st /\ log st' = log st.
Proof.
  cbv zeta.
  apply (Check_init_changes_only demo_rt "Check {x}" "DATASET_METADATA_0001" 0 (Some "green") []
           demo_config (initial_state demo_dicts) 0%nat (demo_state "green")).
  - reflexivity.
  - apply demo_state_constructed.
Defined.

Lemma Check_init_appends_id_witness :
  registry_ok (initial_state demo_dicts) /\
  registered_ids (demo_state "green")
    = registered_ids (initial_state demo_dicts) ++ ["DATASET_METADATA_0001"] /\
  registry_ok (demo_state "green").
Proof.
  split; [apply initial_state_registry_ok|].
  apply (Check_init_appends_id demo_rt "Check {x}" "DATASET_METADATA_0001" 0 (Some "green") []
           demo_config (initial_state demo_dicts) 0%nat (demo_state "green")).
  - apply initial_state_registry_ok.
  - apply demo_state_constructed.
Defined.

Lemma registry_never_shrinks_witness :
  "DATASET_METADATA_0001" ∈ registered_ids (demo_state "green") /\
  "DATASET_METADATA_0001"
    ∈ registered_ids (run demo_rt [OpValidate 0%nat []; OpCopy 0%nat "SAMPLE_METADATA_0002" ∅]
                        (demo_state "green")).
Proof.
  assert (Hin : "DATASET_METADATA_0001" ∈ registered_ids (demo_state "green")).
  { apply (Check_init_registers demo_rt _ _ _ _ _ _ _ _ _ (demo_state_constructed "green")). }
  split; [exact Hin|].
  apply (registry_never_shrinks demo_rt _ (demo_state "green") "DATASET_METADATA_0001").
  - apply demo_rt_respects_registry.
  - exact Hin.
Defined.

Lemma Check_init_brace_free_description_witness :
  brace_free "Metadata is present" = true /\
  Check_init demo_rt "Metadata is present" "SAMPLE_A_0001" 0 None [] demo_config
    (initial_state demo_dicts)
  = Check_register
      {| description := "Metadata is present"; id := "SAMPLE_A_0001"; flag_desc := 0;
         validate_func := None; flags := []; config := demo_config;
         _proto_description := "Metadata is present" |} (initial_state demo_dicts).
Proof.
  split; [reflexivity|].
  apply (Check_init_brace_free_description demo_rt "Metadata is present"). reflexivity.
Defined.

Lemma demo_state_allChecks f : allChecks (demo_state f) = [0%nat].
Proof.
  unfold demo_state, Check_init.
  replace (str_format (format_ext demo_rt) demo_config "Check {x}")
    with (Returns (A:=string) "Check present") by (vm_compute; reflexivity).
  reflexivity.
Qed.

Lemma copy_under_own_id_fails_witness :
  checks (demo_state "green") !! 0%nat = Some (demo_check "green") /\
  0%nat ∈ allChecks (demo_state "green") /\
  exists e, copy_with_new_config demo_rt 0%nat (id (demo_check "green")) ∅ (demo_state "green")
            = (Raises e, demo_state "green").
Proof.
  assert (Hreg : 0%nat ∈ allChecks (demo_state "green")).
  { rewrite demo_state_allChecks. left. }
  split; [apply demo_state_check|]. split; [exact Hreg|].
  apply (copy_under_own_id_fails demo_rt 0%nat (demo_check "green") ∅ (demo_state "green")).
  - apply demo_state_check.
  - exact Hreg.
Defined.

Lemma demo_copy_returns :
  copy_with_new_config demo_rt 0%nat "SAMPLE_METADATA_0002" demo_config (demo_state "green")
  = (Returns 1%nat,
     snd (copy_with_new_config demo_rt 0%nat "SAMPLE_METADATA_0002" demo_config
            (demo_state "green"))).
Proof.
  destruct (copy_with_new_config demo_rt 0%nat "SAMPLE_METADATA_0002" demo_config
              (demo_state "green")) as [r st1] eqn:E.
  cbn [snd]. f_equal.
  assert (Hr : fst (copy_with_new_config demo_rt 0%nat "SAMPLE_METADATA_0002" demo_config
                      (demo_state "green")) = Returns 1%nat) by (vm_compute; reflexivity).
  now rewrite E in Hr.
Qed.

Lemma demo_copy_of_copy_returns :
  let st1 := snd (copy_with_new_config demo_rt 0%nat "SAMPLE_METADATA_0002" demo_config
                    (demo_state "green")) in
  copy_with_new_config demo_rt 1%nat "COMPONENT_METADATA_0003" demo_config st1
  = (Returns 2%nat,
     snd (copy_with_new_config demo_rt 1%nat "COMPONENT_METADATA_0003" demo_config st1)).
Proof.
  cbv zeta.
  destruct (copy_with_new_config demo_rt 1%nat "COMPONENT_METADATA_0003" demo_config _)
    as [r st2] eqn:E.
  cbn [snd]. f_equal.
  assert (Hr : fst (copy_with_new_config demo_rt 1%nat "COMPONENT_METADATA_0003" demo_config
                      (snd (copy_with_new_config demo_rt 0%nat "SAMPLE_METADATA_0002"
                              demo_config (demo_state "green")))) = Returns 2%nat)
    by (vm_compute; reflexivity).
  now rewrite E in Hr.
Qed.

Lemma copy_of_copy_shares_witness :
  let st1 := snd (copy_with_new_config demo_rt 0%nat "SAMPLE_METADATA_0002" demo_config
                    (demo_state "green")) in
  let st2 := snd (copy_with_new_config demo_rt 1%nat "COMPONENT_METADATA_0003" demo_config st1) in
  let c := demo_check "green" in
  1%nat <> 0%nat /\ 2%nat <> 0%nat /\ 2%nat <> 1%nat /\
  checks st2 !! 0%nat = Some c /\
  exists c2,
    checks st2 !! 2%nat = Some c2 /\ id c2 = "COMPONENT_METADATA_0003" /\
    config c2 = demo_config /\ flags c2 = [] /\
    _proto_description c2 = _proto_description c /\
    flag_desc c2 = flag_desc c /\ validate_func c2 = validate_func c /\
    forall k, flag_desc_getitem st2 2%nat k = flag_desc_getitem st2 0%nat k.
Proof.
  cbv zeta.
  eapply (copy_of_copy_shares demo_rt 0%nat (demo_check "green") (demo_state "green")
            "SAMPLE_METADATA_0002" demo_config 1%nat).
  - apply demo_state_check.
  - apply demo_copy_returns.
  - apply demo_copy_of_copy_returns.
Defined.

Lemma copy_resets_unhandled_template_witness :
  let st := flag_desc_setitem (demo_state "green") 0%nat DEV_UNHANDLED "custom {e}" in
  let st' := snd (copy_with_new_config demo_rt 0%nat "SAMPLE_METADATA_0002" demo_config st) in
  flag_desc_getitem st 0%nat DEV_UNHANDLED = Some "custom {e}" /\
  flag_desc_getitem st' 0%nat DEV_UNHANDLED = Some DEV_UNHANDLED_TEMPLATE /\
  forall k, k <> DEV_UNHANDLED -> flag_desc_getitem st' 0%nat k = flag_desc_getitem st 0%nat k.
Proof.
  cbv zeta. split; [vm_compute; reflexivity|].
  set (st := flag_desc_setitem (demo_state "green") 0%nat DEV_UNHANDLED "custom {e}").
  assert (Hc : checks st !! 0%nat = Some (demo_check "green")).
  { unfold st, flag_desc_setitem. rewrite demo_state_check.
    cbn [flag_desc demo_check]. rewrite demo_state_dict. cbn [checks set_dicts].
    apply demo_state_check. }
  assert (E : copy_with_new_config demo_rt 0%nat "SAMPLE_METADATA_0002" demo_config st
              = (Returns 1%nat,
                 snd (copy_with_new_config demo_rt 0%nat "SAMPLE_METADATA_0002" demo_config st))).
  { destruct (copy_with_new_config demo_rt 0%nat "SAMPLE_METADATA_0002" demo_config st)
      as [r st1] eqn:E.
    cbn [snd]. f_equal.
    assert (Hr : fst (copy_with_new_config demo_rt 0%nat "SAMPLE_METADATA_0002" demo_config st)
                 = Returns 1%nat) by (vm_compute; reflexivity).
    now rewrite E in Hr. }
  exact (copy_resets_unhandled_template demo_rt 0%nat (demo_check "green") st
           "SAMPLE_METADATA_0002" demo_config 1%nat _ Hc E).
Defined.

Lemma Flag_init_failure_records_nothing_witness :
  let st := demo_state "green" in
  (forall e st', Flag_init strict_rt GREEN 0%nat ∅ st = (Raises e, st') -> st' = st) /\
  Flag_init strict_rt GREEN 0%nat ∅ st = (Raises (TypeError "type mismatch"), st).
Proof.
  cbv zeta.
  destruct (Flag_init_failure_records_nothing strict_rt GREEN 0%nat ∅ (demo_state "green"))
    as [Hany Hstrict].
  split; [exact Hany|].
  apply (Hstrict (demo_check "green") demo_flag_desc "ok" "ok").
  - apply demo_state_check.
  - apply demo_state_dict.
  - reflexivity.
  - vm_compute. reflexivity.
  - reflexivity.
Defined.

Lemma demo_state_none_check : checks demo_state_none !! 0%nat = Some demo_check_none.
Proof.
  unfold demo_state_none, Check_init.
  replace (str_format (format_ext demo_rt) demo_config "Check {x}")
    with (Returns (A:=string) "Check present") by (vm_compute; reflexivity).
  reflexivity.
Qed.

Lemma demo_state_none_dict : dicts demo_state_none !! 0%nat = Some demo_flag_desc.
Proof.
  unfold demo_state_none, Check_init.
  replace (str_format (format_ext demo_rt) demo_config "Check {x}")
    with (Returns (A:=string) "Check present") by (vm_compute; reflexivity).
  vm_compute. reflexivity.
Qed.

Lemma validate_without_function_witness :
  exists fl st',
    validate demo_rt 0%nat [] demo_state_none = (Returns (RFlag fl), st') /\
    code fl = DEV_UNHANDLED /\
    message fl
    = "An unhandled exception occured in None: 'NoneType' object is not callable" /\
    exists c', checks st' !! 0%nat = Some c' /\ flags c' = flags demo_check_none ++ [fl].
Proof.
  apply (validate_without_function demo_rt 0%nat [] demo_state_none demo_check_none
           demo_flag_desc).
  - apply demo_state_none_check.
  - reflexivity.
  - vm_compute. reflexivity.
  - apply demo_state_none_dict.
  - vm_compute. reflexivity.
  - intros fl. reflexivity.
Defined.

Lemma validate_without_template_raises_witness :
  let st := demo_state_cleared in
  exists st2,
    validate demo_rt 0%nat [] st = (Raises (KeyError (FlagCode_repr DEV_UNHANDLED)), st2) /\
    checks st2 = checks st /\ dicts st2 = dicts st /\
    log st2 = log st
                ++ [("Developer exception raised during a validation function for check: ", 0%nat)].
Proof.
  cbv zeta.
  assert (Hc : checks demo_state_cleared !! 0%nat = Some (demo_check "key_error")).
  { unfold demo_state_cleared. cbn [checks set_dicts]. apply demo_state_check. }
  apply (validate_without_template_raises demo_rt 0%nat [] demo_state_cleared
           (demo_check "key_error") (KeyError "'field'") demo_state_cleared
           (demo_check "key_error") ∅).
  - exact Hc.
  - reflexivity.
  - vm_compute. reflexivity.
  - exact Hc.
  - reflexivity.
  - reflexivity.
Defined.

Lemma validate_all_keeps_keys_witness :
  let self' := fst (snd (validate_all demo_methods demo_protocol_red 0%nat)) in
  is_Some (flags_dataset (VVProtocol_flags demo_protocol_red) !! 0%nat) /\
  is_Some (flags_dataset (VVProtocol_flags self') !! 0%nat).
Proof.
  cbv zeta.
  assert (Hold : is_Some (flags_dataset (VVProtocol_flags demo_protocol_red) !! 0%nat))
    by (eexists; reflexivity).
  split; [exact Hold|].
  destruct (validate_all_keeps_keys demo_methods demo_protocol_red 0%nat) as (_ & Hd & _).
  exact (Hd 0%nat Hold).
Defined.

Lemma validate_all_same_results_witness :
  validate_all demo_methods demo_protocol_red 1%nat = (Returns tt, (demo_protocol_red, 2%nat)).
Proof.
  apply (validate_all_same_results demo_methods demo_protocol_red 1%nat
           {[ 0%nat := [demo_red_flag] ]} 2%nat ∅ 2%nat ∅ 2%nat).
  - reflexivity.
  - reflexivity.
  - reflexivity.
  - reflexivity.
  - apply map_empty_subseteq.
  - apply map_empty_subseteq.
Defined.

Lemma find_unknown_type_witness :
  Locaters.Fastq_find demo_fs (format_ext base_rt) Locaters.posix "/data" "s1" ("Cooked", "Forward")
    = (Raises (KeyError "'Cooked'"), []) /\
  Locaters.FastqcReport_find demo_fs (format_ext base_rt) Locaters.posix "/data" "s1"
    ("Raw", "Sideways") "html"
    = (Raises (KeyError "'Sideways'"), []).
Proof.
  split.
  - destruct (find_unknown_type demo_fs (format_ext base_rt) Locaters.posix "/data" "s1" "html"
                ("Cooked", "Forward")) as [Hstage _].
    apply Hstage; discriminate.
  - destruct (find_unknown_type demo_fs (format_ext base_rt) Locaters.posix "/data" "s1" "html"
                ("Raw", "Sideways")) as [_ Hread].
    apply Hread; [left; reflexivity | discriminate | discriminate].
Defined.

Lemma Fastq_pattern_injective_witness :
  Locaters.Fastq_pattern (format_ext base_rt) Locaters.posix "s1" ("Raw", "Forward")
    = Returns "00-RawData/Fastq/s1_R1_raw.fastq.gz" /\
  "s1" = "s1" /\ ("Raw", "Forward") = ("Raw", "Forward").
Proof.
  assert (E : Locaters.Fastq_pattern (format_ext base_rt) Locaters.posix "s1" ("Raw", "Forward")
              = Returns "00-RawData/Fastq/s1_R1_raw.fastq.gz") by (vm_compute; reflexivity).
  split; [exact E|].
  exact (Fastq_pattern_injective (format_ext base_rt) Locaters.posix "s1" ("Raw", "Forward")
           "s1" ("Raw", "Forward") _ E E).
Defined.

Lemma find_returns_existing_path_witness :
  Locaters.Fastq_find demo_fs (format_ext base_rt) Locaters.posix "/data" "s1" ("Raw", "Forward")
    = (Returns "/data/00-RawData/Fastq/s1_R1_raw.fastq.gz",
       ["Locating raw fastqgz file s1 with pattern: 00-RawData/Fastq/s1_R1_raw.fastq.gz"]) /\
  Locaters.path_exists demo_fs "/data/00-RawData/Fastq/s1_R1_raw.fastq.gz" = Returns true /\
  length ["Locating raw fastqgz file s1 with pattern: 00-RawData/Fastq/s1_R1_raw.fastq.gz"]
    = 1%nat.
Proof.
  assert (E : Locaters.Fastq_find demo_fs (format_ext base_rt) Locaters.posix "/data" "s1"
                ("Raw", "Forward")
              = (Returns "/data/00-RawData/Fastq/s1_R1_raw.fastq.gz",
                 ["Locating raw fastqgz file s1 with pattern: 00-RawData/Fastq/s1_R1_raw.fastq.gz"]))
    by (vm_compute; reflexivity).
  split; [exact E|].
  destruct (find_returns_existing_path demo_fs (format_ext base_rt) Locaters.posix "/data")
    as (Hfastq & _).
  exact (Hfastq _ _ _ _ E).
Defined.

(** A sample name the file system refuses: [exists()] raises, and so does
    [find], after the debug record. *)
Example scenario_long_name :
  String.length long_name = 300%nat /\
  fst (Locaters.Fastq_find demo_fs (format_ext base_rt) Locaters.posix "/data" long_name
         ("Raw", "Forward"))
  = Raises (ENAMETOOLONG ("/data/00-RawData/Fastq/" +:+ long_name +:+ "_R1_raw.fastq.gz")) /\
  length (snd (Locaters.Fastq_find demo_fs (format_ext base_rt) Locaters.posix "/data" long_name
                 ("Raw", "Forward"))) = 1%nat /\
  fst (Locaters.Fastq_find demo_fs (format_ext base_rt) Locaters.posix "/data" "s2"
         ("Raw", "Forward"))
  = Raises (AssertionError
              "Target does not exist. Expected: /data/00-RawData/Fastq/s2_R1_raw.fastq.gz. Pattern: 00-RawData/Fastq/s2_R1_raw.fastq.gz").
Proof. vm_compute. auto. Qed.
